(** * The Fury engine of [javascript/packages/fury/lib/fury.ts]

    A shallow embedding of the orchestration class of the JavaScript
    implementation: its constructor, [registerSerializer], [deserialize],
    [serializeInternal], [serialize] and [serializeVolatile].  The class
    mutates a writer, a reader and two resolvers that live in sibling
    modules; here they form an explicit store, threaded through a small
    state-and-exception monad.  Every method call the class makes on one
    of its collaborators is also appended to an event log, so that the
    order of the calls can be stated and proved. *)

From Stdlib Require Import ZArith Lia.
From stdpp Require Import base option list gmap strings.

Local Open Scope Z_scope.

(** ** Values, errors and configuration *)

(** The JavaScript values the engine distinguishes.  The class itself only
    ever tests [data === null]; an object is known by its identity. *)
Inductive JsValue : Type :=
  | VNull
  | VUndefined
  | VBool (b : bool)
  | VNumber (n : Z)
  | VString (s : string)
  | VObject (identity : nat).

(** [data === null] *)
Definition is_null (data : JsValue) : bool :=
  match data with
  | VNull => true
  | _ => false
  end.

(** What a [throw] carries.  [OwnershipError] is the class imported from
    [./error]; [Error] is the built-in one the engine raises itself; any
    other exception, of a codec or of the reader, is an [OtherError]. *)
Inductive JsError : Type :=
  | OwnershipError
  | Error (msg : string)
  | OtherError (name msg : string).

(** [e instanceof OwnershipError] *)
Definition instanceof_OwnershipError (e : JsError) : bool :=
  match e with
  | OwnershipError => true
  | _ => false
  end.

(** How a call ends: it returns, or it throws. *)
Inductive Completion (A : Type) : Type :=
  | Normal (a : A)
  | Throw (e : JsError).
Arguments Normal {A} a.
Arguments Throw {A} e.

(** Modelled from the spec: the [Config] type of [./type] (section 6 of the
    spec: [refTracking], [useSliceString], and [hooks], a mapping from an
    extension-point name to a callback). *)
Record Config : Type := mkConfig {
  refTracking : bool;
  useSliceString : bool;
  hooks : gmap string (JsValue -> JsValue)
}.

(** Modelled from the spec: [TypeDescription] of [./description], "a
    declarative schema object describing the shape of one serializable type
    (field names, field types, nesting)". *)
Inductive TypeDescription : Type :=
  | TPrimitive (typeId : Z)
  | TList (inner : TypeDescription)
  | TRecord (tag : string) (props : TypeProps)
with TypeProps : Type :=
  | PNil
  | PCons (name : string) (type : TypeDescription) (rest : TypeProps).

(** ** The header flags *)

(** Modelled from the spec: [ConfigFlags] of [./type].  Section 6 of the spec
    places [isNull] at bit 0, [isLittleEndian] at bit 1, [isCrossLanguage] at
    bit 2 and [isOutOfBand] at bit 3 of the bitmap byte. *)
Module ConfigFlags.
Definition isNullFlag : Z := Z.shiftl 1 0.
Definition isLittleEndianFlag : Z := Z.shiftl 1 1.
Definition isCrossLanguageFlag : Z := Z.shiftl 1 2.
Definition isOutOfBandFlag : Z := Z.shiftl 1 3.
End ConfigFlags.

(** [(bitmap & flag) === flag] *)
Definition has_flag (bitmap flag : Z) : bool := Z.land bitmap flag =? flag.

(** The frame header is ten bytes long: bitmap, language tag, a 4-byte
    offset and a 4-byte count (the table of section 6 of the spec); the
    payload starts right after it. *)
Definition header_size : nat := 10.

(** ** The writer *)

(** Modelled from the spec: the [BinaryWriter] of [./writer] (section 4.2).
    A growable, cursor-addressed byte buffer that is reused from one call to
    the next, with a pending-release marker ([w_locked]) that an aliasing
    extraction installs and its disposer clears. *)
Record BinaryWriter : Type := mkWriter {
  w_storage : list Z;
  w_cursor : nat;
  w_reserved : nat;
  w_locked : bool
}.

(** Modelled from the spec: a positional write into the growable buffer,
    [storage[p] = b]; the storage grows (zero filled) when [p] lies past its
    end. *)
Definition store (p : nat) (b : Z) (l : list Z) : list Z :=
  if decide (p < length l)%nat
  then <[p := b]> l
  else l ++ replicate (p - length l) 0 ++ [b].

(** Modelled from the spec: "all multi-byte integers little-endian"; the
    four bytes of an unsigned 32-bit value, least significant first. *)
Definition le_bytes32 (v : Z) : list Z :=
  [Z.land v 255; Z.land (Z.shiftr v 8) 255;
   Z.land (Z.shiftr v 16) 255; Z.land (Z.shiftr v 24) 255].

(** Modelled from the spec: a positional write of a byte span at [p]. *)
Fixpoint store_all (p : nat) (bs : list Z) (l : list Z) : list Z :=
  match bs with
  | [] => l
  | b :: bs' => store_all (S p) bs' (store p b l)
  end.

Module Writer.
(** Modelled from the spec: [reset()], "invoked at the start of every write
    -- fails if a pending-release marker is present"; it rewinds the cursor
    and keeps the storage for reuse. *)
Definition reset (w : BinaryWriter) : JsError + BinaryWriter :=
  if w_locked w
  then inl OwnershipError
  else inr (mkWriter (w_storage w) 0 0 false).

(** Modelled from the spec: the primitive write of one byte at the cursor. *)
Definition uint8 (v : Z) (w : BinaryWriter) : BinaryWriter :=
  mkWriter (store (w_cursor w) (Z.land v 255) (w_storage w))
           (S (w_cursor w)) (w_reserved w) (w_locked w).

(** Modelled from the spec: the primitive write of a 32-bit integer at the
    cursor, little-endian. *)
Definition uint32 (v : Z) (w : BinaryWriter) : BinaryWriter :=
  mkWriter (store_all (w_cursor w) (le_bytes32 v) (w_storage w))
           (4 + w_cursor w) (w_reserved w) (w_locked w).

(** Modelled from the spec: [skip(n)], "advance cursor leaving a gap for
    later patching". *)
Definition skip (n : nat) (w : BinaryWriter) : BinaryWriter :=
  mkWriter (w_storage w) (n + w_cursor w) (w_reserved w) (w_locked w).

(** Modelled from the spec: [reserve(n)], "grow capacity without advancing
    the logical length". *)
Definition reserve (n : nat) (w : BinaryWriter) : BinaryWriter :=
  mkWriter (w_storage w) (w_cursor w) (n + w_reserved w) (w_locked w).

(** Modelled from the spec: [getCursor()]. *)
Definition getCursor (w : BinaryWriter) : nat := w_cursor w.

(** Modelled from the spec: [setUint32Position(cursor, value)], "patch a
    previously-skipped 4-byte field in place". *)
Definition setUint32Position (pos : nat) (v : Z) (w : BinaryWriter) : BinaryWriter :=
  mkWriter (store_all pos (le_bytes32 v) (w_storage w))
           (w_cursor w) (w_reserved w) (w_locked w).

(** Modelled from the spec: the bytes written so far, that is the storage
    up to the cursor (what either extraction shows). *)
Definition contents (w : BinaryWriter) : list Z :=
  take (w_cursor w) (w_storage w ++ replicate (w_cursor w) 0).

(** Modelled from the spec: [dump()], "a copying extraction that always
    succeeds and leaves the buffer immediately reusable". *)
Definition dump (w : BinaryWriter) : list Z := contents w.

(** Modelled from the spec: [dumpAndOwn()], "an aliasing extraction that
    succeeds only if no alias is currently outstanding, returns a view over
    the live storage, and installs a pending-release marker". *)
Definition dumpAndOwn (w : BinaryWriter) : JsError + BinaryWriter :=
  if w_locked w
  then inl OwnershipError
  else inr (mkWriter (w_storage w) (w_cursor w) (w_reserved w) true).

(** Modelled from the spec: "the disposer returned alongside an aliasing
    extraction clears the marker". *)
Definition dispose (w : BinaryWriter) : BinaryWriter :=
  mkWriter (w_storage w) (w_cursor w) (w_reserved w) false.
End Writer.

(** ** The reader *)

(** Modelled from the spec: the [BinaryReader] of [./reader]: a cursor over
    the input bytes. *)
Record BinaryReader : Type := mkReader {
  r_bytes : list Z;
  r_cursor : nat
}.

(** Modelled from the spec: the byte at offset [i] of a buffer.  The
    writer's storage reads as zero where nothing was written yet.  Of an
    input only offsets inside it are looked up this way: the reader below
    throws before it reads outside the input. *)
Definition byte_at (l : list Z) (i : nat) : Z := default 0 (l !! i).

(** The signed 32-bit integer the four bytes from offset [c] on stand for,
    least significant byte first. *)
Definition int32_at (bytes : list Z) (c : nat) : Z :=
  let u := byte_at bytes c
           + Z.shiftl (byte_at bytes (1 + c)) 8
           + Z.shiftl (byte_at bytes (2 + c)) 16
           + Z.shiftl (byte_at bytes (3 + c)) 24 in
  if u <? 2 ^ 31 then u else u - 2 ^ 32.

(** Modelled from the spec: the spec names no failure of a primitive read;
    a read that would leave the input throws the [RangeError] of an offset
    out of bounds.  Only that it is no [Error] of the class matters below,
    its message is not the program's. *)
Definition out_of_bounds : JsError := OtherError "RangeError" "offset is out of bounds".

Module Reader.
(** Modelled from the spec: "reset the Reader over the input bytes". *)
Definition reset (bytes : list Z) (r : BinaryReader) : BinaryReader :=
  mkReader bytes 0.

(** Modelled from the spec: the primitive read of one byte; the cursor
    moves on by one.  Past the end of the input the read throws and the
    cursor stays. *)
Definition uint8 (r : BinaryReader) : JsError + (Z * BinaryReader) :=
  match r_bytes r !! r_cursor r with
  | Some v => inr (v, mkReader (r_bytes r) (S (r_cursor r)))
  | None => inl out_of_bounds
  end.

(** Modelled from the spec: the primitive read of a signed 32-bit integer,
    little-endian; the cursor moves on by four.  When fewer than four bytes
    are left the read throws and the cursor stays. *)
Definition int32 (r : BinaryReader) : JsError + (Z * BinaryReader) :=
  let c := r_cursor r in
  if (4 + c <=? length (r_bytes r))%nat
  then inr (int32_at (r_bytes r) c, mkReader (r_bytes r) (4 + c))
  else inl out_of_bounds.
End Reader.

(** ** The resolvers *)

(** Modelled from the spec: the state of the [ReferenceResolver] of
    [./referenceResolver] (section 3): on the write side a map from object
    identity to the reference index it was given, on the read side the
    objects registered so far, by index.  [rr_tracking] is the
    [refTracking] option the resolver was built with. *)
Record ReferenceResolver : Type := mkRefResolver {
  rr_tracking : bool;
  rr_written : gmap nat nat;
  rr_read : list JsValue
}.

(** Modelled from the spec: the state of the [ClassResolver] of
    [./classResolver] (section 3): a table of type identifiers that lives as
    long as the engine, and a transient layer for one pass. *)
Record ClassResolver : Type := mkClassResolver {
  cr_table : gmap string Z;
  cr_transient : list string
}.

Module Resolver.
(** Modelled from the spec: [referenceResolver.reset()], "Reset to empty at
    the start of every serialize/deserialize call". *)
Definition reset_references (r : ReferenceResolver) : ReferenceResolver :=
  mkRefResolver (rr_tracking r) ∅ [].

(** Modelled from the spec: [classResolver.reset()], "the transient layer
    is reset every call, the table persists for the engine's lifetime". *)
Definition reset_classes (c : ClassResolver) : ClassResolver :=
  mkClassResolver (cr_table c) [].
End Resolver.

(** ** The store, the codecs and the engine *)

(** The collaborators one engine owns and mutates. *)
Record World : Type := mkWorld {
  binaryWriter : BinaryWriter;
  binaryReader : BinaryReader;
  referenceResolver : ReferenceResolver;
  classResolver : ClassResolver
}.

(** Modelled from the spec: the [Serializer] type of [./type] (section 3): a
    fixed-size hint ([meta.fixedSize]) and a [write] and a [read] routine
    bound to the engine's writer, reader and resolvers.  A routine is any
    function of the store; it returns or throws. *)
Record Serializer : Type := mkSerializer {
  fixedSize : nat;
  write : JsValue -> World -> Completion unit * World;
  read : World -> Completion JsValue * World
}.

(** The calls the class makes on its collaborators, as they are logged. *)
Inductive Event : Type :=
  | EWriterReset
  | EWriterUint8 (v : Z)
  | EWriterGetCursor (cursor : nat)
  | EWriterSkip (n : nat)
  | EWriterUint32 (v : Z)
  | EWriterReserve (n : nat)
  | EWriterSetUint32Position (pos : nat) (v : Z)
  | EWriterDump
  | EWriterDumpAndOwn
  | EWriterDispose
  | EReaderReset (bytes : list Z)
  | EReaderUint8 (v : Z)
  | EReaderInt32 (v : Z)
  | EReaderFailed
  | EReferenceResolverReset
  | EClassResolverReset
  | ESerializerWrite (data : JsValue)
  | ESerializerRead
  | EGenerateSerializer (description : TypeDescription).

(** An instance of the class: its fields, and the log of the calls made so
    far (oldest first). *)
Record Fury : Type := mkFury {
  config : Config;
  anySerializer : Serializer;
  world : World;
  trace : list Event
}.

(** ** The monad of method bodies *)

Definition M (A : Type) : Type := Fury -> Completion A * Fury.

Definition ret {A} (a : A) : M A := fun f => (Normal a, f).

Definition throw {A} (e : JsError) : M A := fun f => (Throw e, f).

Definition bind {A B} (m : M A) (k : A -> M B) : M B :=
  fun f =>
    match m f with
    | (Normal a, f') => k a f'
    | (Throw e, f') => (Throw e, f')
    end.

(** [try { m } catch (e) { handler e }] *)
Definition try_catch {A} (m : M A) (handler : JsError -> M A) : M A :=
  fun f =>
    match m f with
    | (Normal a, f') => (Normal a, f')
    | (Throw e, f') => handler e f'
    end.

Declare Scope fury_scope.
Delimit Scope fury_scope with fury.
Notation "x <- m ;; k" := (bind m (fun x => k))
  (at level 100, m at next level, right associativity) : fury_scope.
Notation "m ;; k" := (bind m (fun _ => k))
  (at level 100, right associativity) : fury_scope.
Local Open Scope fury_scope.

Definition with_world (w : World) (f : Fury) : Fury :=
  mkFury (config f) (anySerializer f) w (trace f).

Definition log (e : Event) : M unit :=
  fun f => (Normal tt, mkFury (config f) (anySerializer f) (world f) (trace f ++ [e])).

Definition with_writer (bw : BinaryWriter) (w : World) : World :=
  mkWorld bw (binaryReader w) (referenceResolver w) (classResolver w).

Definition with_reader (br : BinaryReader) (w : World) : World :=
  mkWorld (binaryWriter w) br (referenceResolver w) (classResolver w).

(** A writer method that cannot fail. *)
Definition on_writer (op : BinaryWriter -> BinaryWriter) : M unit :=
  fun f => (Normal tt, with_world (with_writer (op (binaryWriter (world f))) (world f)) f).

(** A writer method that may throw. *)
Definition try_writer (op : BinaryWriter -> JsError + BinaryWriter) : M unit :=
  fun f =>
    match op (binaryWriter (world f)) with
    | inl e => (Throw e, f)
    | inr bw => (Normal tt, with_world (with_writer bw (world f)) f)
    end.

(** A reader method: it gives a value and moves the reader on, or it
    throws.  The call is logged with the value it gave, or as
    [EReaderFailed] when it threw. *)
Definition on_reader (op : BinaryReader -> JsError + (Z * BinaryReader))
    (event : Z -> Event) : M Z :=
  fun f =>
    match op (binaryReader (world f)) with
    | inl e => (log EReaderFailed ;; throw e) f
    | inr (v, br) => (log (event v) ;; ret v) (with_world (with_reader br (world f)) f)
    end.

(** A codec routine run against the engine's store. *)
Definition on_world {A} (op : World -> Completion A * World) : M A :=
  fun f => let '(r, w) := op (world f) in (r, with_world w f).

(** *** The method calls of the class, each logged as it is made *)

Definition binaryWriter_reset : M unit :=
  log EWriterReset ;; try_writer Writer.reset.

Definition binaryWriter_uint8 (v : Z) : M unit :=
  log (EWriterUint8 v) ;; on_writer (Writer.uint8 v).

Definition binaryWriter_getCursor : M nat :=
  fun f =>
    let c := Writer.getCursor (binaryWriter (world f)) in
    (log (EWriterGetCursor c) ;; ret c) f.

Definition binaryWriter_skip (n : nat) : M unit :=
  log (EWriterSkip n) ;; on_writer (Writer.skip n).

Definition binaryWriter_uint32 (v : Z) : M unit :=
  log (EWriterUint32 v) ;; on_writer (Writer.uint32 v).

Definition binaryWriter_reserve (n : nat) : M unit :=
  log (EWriterReserve n) ;; on_writer (Writer.reserve n).

Definition binaryWriter_setUint32Position (pos : nat) (v : Z) : M unit :=
  log (EWriterSetUint32Position pos v) ;; on_writer (Writer.setUint32Position pos v).

Definition binaryWriter_dump : M (list Z) :=
  log EWriterDump ;; fun f => (Normal (Writer.dump (binaryWriter (world f))), f).

Definition binaryReader_reset (bytes : list Z) : M unit :=
  log (EReaderReset bytes) ;;
  fun f => (Normal tt, with_world (with_reader (Reader.reset bytes (binaryReader (world f))) (world f)) f).

Definition binaryReader_uint8 : M Z := on_reader Reader.uint8 EReaderUint8.

Definition binaryReader_int32 : M Z := on_reader Reader.int32 EReaderInt32.

Definition referenceResolver_reset : M unit :=
  log EReferenceResolverReset ;;
  fun f =>
    let w := world f in
    (Normal tt,
     with_world (mkWorld (binaryWriter w) (binaryReader w)
                         (Resolver.reset_references (referenceResolver w))
                         (classResolver w)) f).

Definition classResolver_reset : M unit :=
  log EClassResolverReset ;;
  fun f =>
    let w := world f in
    (Normal tt,
     with_world (mkWorld (binaryWriter w) (binaryReader w) (referenceResolver w)
                         (Resolver.reset_classes (classResolver w))) f).

Definition serializer_write (serializer : Serializer) (data : JsValue) : M unit :=
  log (ESerializerWrite data) ;; on_world (write serializer data).

Definition serializer_read (serializer : Serializer) : M JsValue :=
  log ESerializerRead ;; on_world (read serializer).

(** What [serializeVolatile] hands back: a view that reads the live buffer
    of the engine when it is looked at, and the disposer. *)
Record OwnedView : Type := mkOwnedView {
  get : Fury -> list Z;
  dispose : M unit
}.

Definition binaryWriter_dumpAndOwn : M OwnedView :=
  log EWriterDumpAndOwn ;;
  try_writer Writer.dumpAndOwn ;;
  ret (mkOwnedView
         (fun f => Writer.contents (binaryWriter (world f)))
         (log EWriterDispose ;; on_writer Writer.dispose)).

(** What [registerSerializer] returns: the codec and three closures. *)
Module Registered.
Record t : Type := mk {
  serializer : Serializer;
  serialize : JsValue -> M (list Z);
  serializeVolatile : JsValue -> M OwnedView;
  deserialize : list Z -> M JsValue
}.
End Registered.

(** What the class imports and this file does not hold: the language tag
    [Language.XLANG] of [./type], the codec compiler [generateSerializer] and
    the [AnySerializer] class of [./gen], and the table of built-in types
    that [classResolver.init] installs. *)
Record Imports : Type := mkImports {
  Language_XLANG : Z;
  generateSerializer : Config -> TypeDescription -> World -> Completion Serializer * World;
  new_AnySerializer : Config -> Serializer;
  builtin_classes : gmap string Z
}.

(** The message of the ownership error and those of the three protocol
    checks, as the class words them. *)
Definition permission_denied : string :=
  "Permission denied. To release the serialization ownership, you must call the dispose function returned by serializeVolatile.".
Definition big_endian_unsupported : string := "big endian is not supported now".
Definition crosslanguage_only : string := "support crosslanguage mode only".
Definition outofband_unsupported : string := "outofband mode is not supported now".

Section Engine.
Context (imports : Imports).

(** The default value of the constructor's parameter. *)
Definition default_config : Config :=
  {| refTracking := false; useSliceString := false; hooks := ∅ |}.

(** [constructor(public config: Config = {...})]: [None] is a call without
    the argument. *)
Definition new_Fury (argument : option Config) : Fury :=
  let config := default default_config argument in
  {| config := config;
     anySerializer := new_AnySerializer imports config;
     world :=
       {| binaryWriter := mkWriter [] 0 0 false;
          binaryReader := mkReader [] 0;
          referenceResolver := mkRefResolver (refTracking config) ∅ [];
          classResolver := mkClassResolver (builtin_classes imports) [] |};
     trace := [] |}.

(** [serializer: Serializer = this.anySerializer] *)
Definition or_anySerializer (serializer : option Serializer) : M Serializer :=
  fun f => (Normal (default (anySerializer f) serializer), f).

(** The bitmap [serializeInternal] computes for [data]. *)
Definition bitmap_of (data : JsValue) : Z :=
  let bitmap := 0 in
  let bitmap := if is_null data then Z.lor bitmap ConfigFlags.isNullFlag else bitmap in
  let bitmap := Z.lor bitmap ConfigFlags.isLittleEndianFlag in
  let bitmap := Z.lor bitmap ConfigFlags.isCrossLanguageFlag in
  bitmap.

Definition serializeInternal (data : JsValue) (serializer : Serializer) : M unit :=
  try_catch binaryWriter_reset
    (fun e =>
       if instanceof_OwnershipError e
       then throw (Error permission_denied)
       else throw e) ;;
  referenceResolver_reset ;;
  classResolver_reset ;;
  binaryWriter_uint8 (bitmap_of data) ;;
  binaryWriter_uint8 (Language_XLANG imports) ;;
  cursor <- binaryWriter_getCursor ;;
  binaryWriter_skip 4 ;;
  binaryWriter_uint32 0 ;;
  binaryWriter_reserve (fixedSize serializer) ;;
  serializer_write serializer data ;;
  position <- binaryWriter_getCursor ;;
  binaryWriter_setUint32Position cursor (Z.of_nat position).

Definition serialize (data : JsValue) (serializer : option Serializer) : M (list Z) :=
  serializer <- or_anySerializer serializer ;;
  serializeInternal data serializer ;;
  binaryWriter_dump.

Definition serializeVolatile (data : JsValue) (serializer : option Serializer) : M OwnedView :=
  serializer <- or_anySerializer serializer ;;
  serializeInternal data serializer ;;
  binaryWriter_dumpAndOwn.

Definition deserialize (bytes : list Z) (serializer : option Serializer) : M JsValue :=
  serializer <- or_anySerializer serializer ;;
  referenceResolver_reset ;;
  classResolver_reset ;;
  binaryReader_reset bytes ;;
  bitmap <- binaryReader_uint8 ;;
  if has_flag bitmap ConfigFlags.isNullFlag then ret VNull else
  let isLittleEndian := has_flag bitmap ConfigFlags.isLittleEndianFlag in
  if negb isLittleEndian then throw (Error big_endian_unsupported) else
  let isCrossLanguage := has_flag bitmap ConfigFlags.isCrossLanguageFlag in
  if negb isCrossLanguage then throw (Error crosslanguage_only) else
  binaryReader_uint8 ;;
  let isOutOfBandEnabled := has_flag bitmap ConfigFlags.isOutOfBandFlag in
  if isOutOfBandEnabled then throw (Error outofband_unsupported) else
  binaryReader_int32 ;;
  binaryReader_int32 ;;
  serializer_read serializer.

Definition registerSerializer (description : TypeDescription) : M Registered.t :=
  serializer <-
    (log (EGenerateSerializer description) ;;
     fun f => on_world (generateSerializer imports (config f) description) f) ;;
  ret {| Registered.serializer := serializer;
         Registered.serialize := fun data => serialize data (Some serializer);
         Registered.serializeVolatile := fun data => serializeVolatile data (Some serializer);
         Registered.deserialize := fun bytes => deserialize bytes (Some serializer) |}.
End Engine.

(** ** Vocabulary for the statements *)

(** The engine with [es] appended to its log. *)
Definition logged (es : list Event) (f : Fury) : Fury :=
  mkFury (config f) (anySerializer f) (world f) (trace f ++ es).

(** The calls a computation makes when it is run from [f]. *)
Definition emitted {A} (m : M A) (f : Fury) : list Event :=
  drop (length (trace f)) (trace (snd (m f))).


(** How many times [es] compiles a codec. *)
Fixpoint compilations (es : list Event) : nat :=
  match es with
  | [] => 0
  | EGenerateSerializer _ :: es' => S (compilations es')
  | _ :: es' => compilations es'
  end.

(** How many times [es] runs a codec's [read]. *)
Fixpoint codec_reads (es : list Event) : nat :=
  match es with
  | [] => 0
  | ESerializerRead :: es' => S (codec_reads es')
  | _ :: es' => codec_reads es'
  end.

(** How many bytes of the payload, which starts after the header, a reader
    has gone through. *)
Definition payload_bytes_consumed (r : BinaryReader) : nat :=
  (r_cursor r - header_size)%nat.

(** The errors the spec calls a protocol violation and an ownership
    violation, as the class throws them. *)
Definition is_protocol_violation (e : JsError) : bool :=
  match e with
  | Error msg =>
      bool_decide (msg = big_endian_unsupported)
      || bool_decide (msg = crosslanguage_only)
      || bool_decide (msg = outofband_unsupported)
  | _ => false
  end.


(** Both resolvers after their reset. *)
Definition reset_resolvers (w : World) : World :=
  mkWorld (binaryWriter w) (binaryReader w)
          (Resolver.reset_references (referenceResolver w))
          (Resolver.reset_classes (classResolver w)).

(** The store with the per-call state of the resolvers replaced: what an
    earlier call may have left behind. *)
Definition with_leftovers (written : gmap nat nat) (objects : list JsValue)
    (transient : list string) (f : Fury) : Fury :=
  let w := world f in
  with_world
    (mkWorld (binaryWriter w) (binaryReader w)
       (mkRefResolver (rr_tracking (referenceResolver w)) written objects)
       (mkClassResolver (cr_table (classResolver w)) transient)) f.

(** The writer once the frame header of [data] is in place and the codec's
    hint is reserved: the state in which the codec's [write] starts. *)
Definition framed_writer (imports : Imports) (data : JsValue) (s : Serializer)
    (bw : BinaryWriter) : BinaryWriter :=
  Writer.reserve (fixedSize s)
    (Writer.uint32 0
       (Writer.skip 4
          (Writer.uint8 (Language_XLANG imports)
             (Writer.uint8 (bitmap_of data)
                (mkWriter (w_storage bw) 0 0 false))))).

Definition world_at_write (imports : Imports) (data : JsValue) (s : Serializer)
    (w : World) : World :=
  with_writer (framed_writer imports data s (binaryWriter w)) (reset_resolvers w).

(** The store after the offset field is patched. *)
Definition patched (w : World) : World :=
  with_writer
    (Writer.setUint32Position 2 (Z.of_nat (w_cursor (binaryWriter w))) (binaryWriter w)) w.

(** The calls of the write path up to and including the codec's [write]. *)
Definition frame_events (imports : Imports) (data : JsValue) (s : Serializer) : list Event :=
  [EWriterReset; EReferenceResolverReset; EClassResolverReset;
   EWriterUint8 (bitmap_of data); EWriterUint8 (Language_XLANG imports);
   EWriterGetCursor 2; EWriterSkip 4; EWriterUint32 0;
   EWriterReserve (fixedSize s); ESerializerWrite data].

(** The two calls that patch the offset field once the codec has returned
    with the cursor at [position]. *)
Definition patch_events (position : nat) : list Event :=
  [EWriterGetCursor position; EWriterSetUint32Position 2 (Z.of_nat position)].

(** The whole write path, ending in the extraction [extract]. *)
Definition write_path (imports : Imports) (data : JsValue) (s : Serializer)
    (position : nat) (extract : Event) : list Event :=
  frame_events imports data s ++ patch_events position ++ [extract].

(** The first three calls of [deserialize]. *)
Definition read_start (bytes : list Z) : list Event :=
  [EReferenceResolverReset; EClassResolverReset; EReaderReset bytes].

(** The calls of the read path up to the first header byte. *)
Definition read_prologue (bytes : list Z) : list Event :=
  [EReferenceResolverReset; EClassResolverReset; EReaderReset bytes;
   EReaderUint8 (byte_at bytes 0)].

(** The store once the resolvers are reset and [n] bytes of [bytes] are read. *)
Definition world_reading (bytes : list Z) (n : nat) (w : World) : World :=
  with_reader (mkReader bytes n) (reset_resolvers w).

(** The calls of the read path of a frame that passes the header checks. *)
Definition read_path (bytes : list Z) : list Event :=
  read_prologue bytes ++
  [EReaderUint8 (byte_at bytes 1);
   EReaderInt32 (int32_at bytes 2);
   EReaderInt32 (int32_at bytes 6);
   ESerializerRead].

(** The error of a header that is not null and fails a check: the checks
    run in the order little-endian, cross-language, out-of-band. *)
Definition rejection (b : Z) : JsError :=
  if negb (Z.testbit b 1) then Error big_endian_unsupported
  else if negb (Z.testbit b 2) then Error crosslanguage_only
  else Error outofband_unsupported.

(** The cursor at which the codec's [write] leaves the writer. *)
Definition position_after_write (imports : Imports) (data : JsValue) (codec : Serializer)
    (f : Fury) : nat :=
  w_cursor (binaryWriter (snd (write codec data (world_at_write imports data codec (world f))))).

(** The view [serializeVolatile] returns: always the same two closures over
    the engine's one writer. *)
Definition the_view : OwnedView :=
  mkOwnedView
    (fun f => Writer.contents (binaryWriter (world f)))
    (log EWriterDispose ;; on_writer Writer.dispose).

(** The writer after the bytes [payload] were written one by one. *)
Definition appended (payload : list Z) (bw : BinaryWriter) : BinaryWriter :=
  foldl (fun bw b => Writer.uint8 b bw) bw payload.

(** A codec that only appends: whatever the store, its [write] of [data]
    returns normally and leaves the writer as after [payload] was written
    byte by byte. *)
Definition appends (s : Serializer) (data : JsValue) (payload : list Z) : Prop :=
  forall w : World,
    fst (write s data w) = Normal tt /\
    binaryWriter (snd (write s data w)) = appended payload (binaryWriter w).

(** The frame of section 6 of the spec around [payload]: bitmap, language
    tag, the offset of the end of the payload, a zero count, the payload. *)
Definition frame (imports : Imports) (data : JsValue) (payload : list Z) : list Z :=
  [Z.land (bitmap_of data) 255; Z.land (Language_XLANG imports) 255]
  ++ le_bytes32 (Z.of_nat (header_size + length payload))
  ++ le_bytes32 0
  ++ map (fun b => Z.land b 255) payload.

(** A codec whose [write] of [data] returns normally and leaves the
    writer's pending-release marker as it found it. *)
Definition writes_normally (s : Serializer) (data : JsValue) : Prop :=
  forall w : World,
    fst (write s data w) = Normal tt /\
    w_locked (binaryWriter (snd (write s data w))) = w_locked (binaryWriter w).













(** How many of the calls [es] are calls on the writer. *)
Fixpoint writer_calls (es : list Event) : nat :=
  match es with
  | [] => 0
  | (EWriterReset | EWriterUint8 _ | EWriterGetCursor _ | EWriterSkip _ | EWriterUint32 _
     | EWriterReserve _ | EWriterSetUint32Position _ _ | EWriterDump | EWriterDumpAndOwn
     | EWriterDispose) :: es' => S (writer_calls es')
  | _ :: es' => writer_calls es'
  end.

(** The number a little-endian byte span stands for. *)
Definition decode_le (bs : list Z) : Z := foldr (fun b acc => b + 256 * acc) 0 bs.

(** Whether a call returned. *)
Definition returned {A} (r : Completion A) : bool :=
  match r with
  | Normal _ => true
  | Throw _ => false
  end.

(** [serialize] called once for each value and codec of [calls], in order,
    on the same engine: how each call ends. *)
Fixpoint serialize_each (imports : Imports) (calls : list (JsValue * Serializer)) (f : Fury)
    : list (Completion (list Z)) :=
  match calls with
  | [] => []
  | (data, codec) :: calls' =>
      let '(r, f') := serialize imports data (Some codec) f in
      r :: serialize_each imports calls' f'
  end.

(** ** Sample instances *)

(** A codec that writes one byte for any value but [null], nothing for
    [null], and reads back [undefined]. *)
Definition sample_serializer : Serializer :=
  {| fixedSize := 1;
     write := fun data w =>
       (Normal tt,
        with_writer
          (appended (if is_null data then [] else [42]) (binaryWriter w)) w);
     read := fun w => (Normal VUndefined, w) |}.

(** A codec whose routines always throw. *)
Definition failing_serializer : Serializer :=
  {| fixedSize := 0;
     write := fun _ w => (Throw (OtherError "TypeError" "unsupported value"), w);
     read := fun w => (Throw (OtherError "TypeError" "malformed data"), w) |}.

(** A codec that registers what it writes with the two resolvers, as the
    codec of an object type does, and appends one byte. *)
Definition tracking_serializer : Serializer :=
  {| fixedSize := 1;
     write := fun data w =>
       let rr := referenceResolver w in
       let cr := classResolver w in
       (Normal tt,
        mkWorld (appended [1] (binaryWriter w)) (binaryReader w)
          (mkRefResolver (rr_tracking rr)
             (match data with
              | VObject identity => <[identity := size (rr_written rr)]> (rr_written rr)
              | _ => rr_written rr
              end)
             (rr_read rr))
          (mkClassResolver (cr_table cr) (cr_transient cr ++ ["Point"])));
     read := fun w => (Normal VUndefined, w) |}.

Definition sample_imports : Imports :=
  {| Language_XLANG := 0;
     generateSerializer := fun _ _ w => (Normal sample_serializer, w);
     new_AnySerializer := fun _ => sample_serializer;
     builtin_classes := ∅ |}.

Definition sample_fury : Fury := new_Fury sample_imports None.

(** An engine built with reference tracking on. *)
Definition tracking_fury : Fury :=
  new_Fury sample_imports
    (Some {| refTracking := true; useSliceString := false; hooks := ∅ |}).

(** An engine whose resolvers still hold state of an earlier pass and whose
    buffer holds stale bytes. *)
Definition used_fury : Fury :=
  with_world
    (mkWorld (mkWriter [9; 9; 9; 9; 9; 9; 9; 9; 9; 9; 9; 9] 12 3 false)
             (mkReader [6; 0] 2)
             (mkRefResolver true {[ 5%nat := 0%nat ]} [VObject 5])
             (mkClassResolver ∅ ["Point"]))
    sample_fury.

(** The same engine after a volatile write whose view is still out. *)
Definition held_fury : Fury :=
  snd (serializeVolatile sample_imports (VNumber 3) None used_fury).



(** What [registerSerializer] returns under [sample_imports]. *)
Definition sample_registered : Registered.t :=
  {| Registered.serializer := sample_serializer;
     Registered.serialize := fun data => serialize sample_imports data (Some sample_serializer);
     Registered.serializeVolatile :=
       fun data => serializeVolatile sample_imports data (Some sample_serializer);
     Registered.deserialize := fun bytes => deserialize bytes (Some sample_serializer) |}.

(** ** Flags and bits *)

(** Masking with a power of two keeps that one bit. *)
Lemma land_pow2 (b k : Z) :
  0 <= k -> Z.land b (2 ^ k) = if Z.testbit b k then 2 ^ k else 0.
Proof.
  intros Hk. apply Z.bits_inj'. intros n Hn.
  rewrite Z.land_spec, (Z.pow2_bits_eqb k n Hk).
  destruct (Z.eqb_spec k n) as [->|Hne].
  - destruct (Z.testbit b n) eqn:E; rewrite ?andb_true_r.
    + now rewrite Z.pow2_bits_eqb, Z.eqb_refl.
    + now rewrite Z.bits_0.
  - rewrite andb_false_r. destruct (Z.testbit b k).
    + rewrite Z.pow2_bits_eqb by assumption. symmetry. now apply Z.eqb_neq.
    + now rewrite Z.bits_0.
Qed.

(** The test [(bitmap & flag) === flag] with a one-bit flag reads that bit. *)
Lemma has_flag_testbit (b k : Z) :
  0 <= k -> has_flag b (Z.shiftl 1 k) = Z.testbit b k.
Proof.
  intros Hk. unfold has_flag. rewrite Z.shiftl_1_l, land_pow2 by assumption.
  assert (0 < 2 ^ k) by (apply Z.pow_pos_nonneg; lia).
  destruct (Z.testbit b k).
  - apply Z.eqb_refl.
  - apply Z.eqb_neq. lia.
Qed.

(** The four flags of the header, bit by bit. *)
Lemma has_isNullFlag b : has_flag b ConfigFlags.isNullFlag = Z.testbit b 0.
Proof. now apply has_flag_testbit. Qed.

Lemma has_isLittleEndianFlag b : has_flag b ConfigFlags.isLittleEndianFlag = Z.testbit b 1.
Proof. now apply has_flag_testbit. Qed.

Lemma has_isCrossLanguageFlag b : has_flag b ConfigFlags.isCrossLanguageFlag = Z.testbit b 2.
Proof. now apply has_flag_testbit. Qed.

Lemma has_isOutOfBandFlag b : has_flag b ConfigFlags.isOutOfBandFlag = Z.testbit b 3.
Proof. now apply has_flag_testbit. Qed.

(** The bitmap is 7 for [null] and 6 for anything else. *)
Lemma bitmap_of_value data : bitmap_of data = if is_null data then 7 else 6.
Proof. unfold bitmap_of. now destruct (is_null data). Qed.

(** ** The bytes in the buffer *)

(** A positional write changes the byte at its offset and no other. *)
Lemma byte_at_store p b l i :
  byte_at (store p b l) i = if decide (i = p) then b else byte_at l i.
Proof.
  unfold byte_at, store. destruct (decide (p < length l)%nat) as [Hlt|Hge].
  - destruct (decide (i = p)) as [->|Hne].
    + now rewrite list_lookup_insert_eq.
    + now rewrite list_lookup_insert_ne by congruence.
  - destruct (decide (i = p)) as [->|Hne].
    + rewrite lookup_app_r by lia. rewrite lookup_app_r by (rewrite length_replicate; lia).
      rewrite length_replicate. now replace (p - length l - (p - length l))%nat with 0%nat by lia.
    + destruct (decide (i < length l)%nat).
      * now rewrite lookup_app_l.
      * rewrite lookup_app_r by lia. rewrite (lookup_ge_None_2 l i) by lia.
        destruct (decide (i < p)%nat).
        -- rewrite lookup_app_l by (rewrite length_replicate; lia).
           now rewrite lookup_replicate_2 by lia.
        -- rewrite lookup_ge_None_2; [reflexivity|].
           rewrite length_app, length_replicate. simpl. lia.
Qed.

(** The contents of the writer, offset by offset. *)
Lemma contents_bytes w :
  Writer.contents w = map (byte_at (w_storage w)) (seq 0 (w_cursor w)).
Proof.
  unfold Writer.contents. apply list_eq. intros i.
  rewrite list_lookup_fmap.
  destruct (decide (i < w_cursor w)%nat) as [Hlt|Hge].
  - rewrite lookup_take_lt by assumption. rewrite lookup_seq_lt by assumption. simpl.
    unfold byte_at. destruct (decide (i < length (w_storage w))%nat).
    + rewrite lookup_app_l by assumption.
      destruct (lookup_lt_is_Some_2 (w_storage w) i) as [x Hx]; [assumption|]. now rewrite Hx.
    + rewrite lookup_app_r by lia. rewrite lookup_replicate_2 by lia.
      now rewrite lookup_ge_None_2 by lia.
  - rewrite lookup_take_ge by lia. now rewrite lookup_seq_ge by lia.
Qed.

(** A span written at [p] is read back at [p], [p + 1], ...; the other
    bytes stay. *)
Lemma byte_at_store_all bs : forall p l i,
  byte_at (store_all p bs l) i
  = match (if (p <=? i)%nat then bs !! (i - p)%nat else None) with
    | Some b => b
    | None => byte_at l i
    end.
Proof.
  induction bs as [|b bs IH]; intros p l i; simpl.
  - now destruct (p <=? i)%nat.
  - rewrite IH, byte_at_store.
    destruct (Nat.leb_spec (S p) i), (Nat.leb_spec p i); try lia.
    + replace (i - p)%nat with (S (i - S p)) by lia. simpl.
      destruct (bs !! (i - S p)%nat); [reflexivity|]. destruct (decide (i = p)); [lia|reflexivity].
    + replace (i - p)%nat with 0%nat by lia. simpl.
      destruct (decide (i = p)); [reflexivity|lia].
    + destruct (decide (i = p)); [lia|reflexivity].
Qed.

(** Appending moves the cursor by the length of the payload. *)
Lemma appended_cursor payload : forall bw,
  w_cursor (appended payload bw) = (w_cursor bw + length payload)%nat.
Proof.
  induction payload as [|b p IH]; intros bw; simpl.
  - lia.
  - unfold appended in *. simpl. rewrite IH. simpl. lia.
Qed.

(** Appending writes the payload from the cursor on and leaves what lies
    before it. *)
Lemma appended_byte payload : forall bw i,
  byte_at (w_storage (appended payload bw)) i
  = match (if (w_cursor bw <=? i)%nat then payload !! (i - w_cursor bw)%nat else None) with
    | Some b => Z.land b 255
    | None => byte_at (w_storage bw) i
    end.
Proof.
  induction payload as [|b p IH]; intros bw i.
  - simpl. now destruct (w_cursor bw <=? i)%nat.
  - unfold appended in *. simpl foldl. rewrite IH. simpl w_cursor. simpl w_storage.
    rewrite byte_at_store.
    destruct (Nat.leb_spec (S (w_cursor bw)) i), (Nat.leb_spec (w_cursor bw) i); try lia.
    + replace (i - w_cursor bw)%nat with (S (i - S (w_cursor bw))) by lia. simpl.
      destruct (p !! (i - S (w_cursor bw))%nat); [reflexivity|].
      destruct (decide (i = w_cursor bw)); [lia|reflexivity].
    + replace (i - w_cursor bw)%nat with 0%nat by lia. simpl.
      destruct (decide (i = w_cursor bw)); [reflexivity|lia].
    + destruct (decide (i = w_cursor bw)); [lia|reflexivity].
Qed.

(** Appending leaves the pending-release marker as it is. *)
Lemma appended_locked payload : forall bw,
  w_locked (appended payload bw) = w_locked bw.
Proof.
  induction payload as [|b p IH]; intros bw; [reflexivity|].
  unfold appended in *. cbn [foldl]. now rewrite IH.
Qed.

(** The sample codec appends, and leaves the marker alone. *)
Lemma sample_serializer_appends data :
  appends sample_serializer data (if is_null data then [] else [42]).
Proof. intros w. split; reflexivity. Qed.

Lemma sample_serializer_writes_normally data : writes_normally sample_serializer data.
Proof.
  intros w. split; [reflexivity|]. cbn [sample_serializer write snd with_writer binaryWriter].
  apply appended_locked.
Qed.

(** The header takes ten bytes. *)
Lemma framed_cursor imports data s bw : w_cursor (framed_writer imports data s bw) = 10%nat.
Proof. reflexivity. Qed.

(** The bytes of the header before the offset field is patched: offsets 2
    to 5 still hold whatever the buffer held. *)
Lemma framed_byte imports data s bw i :
  byte_at (w_storage (framed_writer imports data s bw)) i
  = match i with
    | 0%nat => Z.land (bitmap_of data) 255
    | 1%nat => Z.land (Language_XLANG imports) 255
    | 6%nat | 7%nat | 8%nat | 9%nat => 0
    | _ => byte_at (w_storage bw) i
    end.
Proof.
  unfold framed_writer, Writer.reserve, Writer.uint32, Writer.skip, Writer.uint8.
  cbn [w_storage w_cursor].
  rewrite byte_at_store_all, !byte_at_store.
  do 10 (destruct i as [|i]; [reflexivity|]). reflexivity.
Qed.

(** The frame is its ten header bytes, then the payload. *)
Lemma frame_split imports data payload :
  frame imports data payload
  = ([Z.land (bitmap_of data) 255; Z.land (Language_XLANG imports) 255]
     ++ le_bytes32 (Z.of_nat (header_size + length payload)) ++ le_bytes32 0)
    ++ map (fun b => Z.land b 255) payload.
Proof. reflexivity. Qed.

(** Header, appended payload and patched offset together give the frame. *)
Lemma patched_contents imports data s bw payload :
  Writer.contents
    (Writer.setUint32Position 2
       (Z.of_nat (w_cursor (appended payload (framed_writer imports data s bw))))
       (appended payload (framed_writer imports data s bw)))
  = frame imports data payload.
Proof.
  rewrite contents_bytes. unfold Writer.setUint32Position. cbn [w_storage w_cursor].
  rewrite appended_cursor, framed_cursor.
  apply list_eq. intros i. rewrite list_lookup_fmap.
  destruct (decide (i < 10)%nat) as [Hlt|Hge].
  - rewrite lookup_seq_lt by lia. cbn [fmap option_fmap option_map].
    rewrite byte_at_store_all, appended_byte, framed_cursor, framed_byte.
    unfold frame, header_size.
    do 10 (destruct i as [|i]; [reflexivity|]). lia.
  - rewrite frame_split, lookup_app_r by (cbn; lia).
    change (length ([_; _] ++ le_bytes32 _ ++ le_bytes32 0)) with 10%nat.
    change (map (λ b : Z, Z.land b 255) payload) with ((λ b : Z, Z.land b 255) <$> payload).
    rewrite (list_lookup_fmap (λ b : Z, Z.land b 255) payload).
    destruct (decide (i < 10 + length payload)%nat) as [Hlt|Hge'].
    + rewrite lookup_seq_lt by lia. change (0 + i)%nat with i.
      cbn [fmap option_fmap option_map].
      rewrite byte_at_store_all, appended_byte, framed_cursor.
      destruct (lookup_lt_is_Some_2 payload (i - 10)) as [x Hx]; [lia|].
      rewrite Hx.
      destruct (Nat.leb_spec 2 i); [|lia]. destruct (Nat.leb_spec 10 i); [|lia].
      rewrite lookup_ge_None_2 by (cbn; lia). reflexivity.
    + rewrite lookup_seq_ge by lia. rewrite lookup_ge_None_2 by lia. reflexivity.
Qed.

(** ** What a call logs *)

(** A run that extends the log by [es] has made the calls [es]. *)
Lemma emitted_logged {A} (m : M A) (f : Fury) (es : list Event) :
  trace (snd (m f)) = trace f ++ es -> emitted m f = es.
Proof. intros E. unfold emitted. rewrite E. apply drop_app_length. Qed.

(** ** The write path, run symbolically *)

Ltac run_monad :=
  cbv beta iota zeta delta
    [bind try_catch ret throw log try_writer on_writer on_reader on_world
     binaryWriter_reset binaryWriter_uint8 binaryWriter_getCursor binaryWriter_skip
     binaryWriter_uint32 binaryWriter_reserve binaryWriter_setUint32Position
     binaryWriter_dump binaryWriter_dumpAndOwn binaryReader_reset binaryReader_uint8
     binaryReader_int32 referenceResolver_reset classResolver_reset
     serializer_write serializer_read or_anySerializer
     with_world with_writer with_reader logged
     world trace config anySerializer
     binaryWriter binaryReader referenceResolver classResolver
     instanceof_OwnershipError Writer.reset Writer.getCursor Reader.reset Reader.uint8
     r_bytes r_cursor negb fst snd].

Ltac same_log := rewrite <- ?app_assoc; reflexivity.

(** With a volatile view outstanding the write path stops at the writer's
    reset: nothing else is called, nothing is changed. *)
Lemma serializeInternal_locked imports data s f :
  w_locked (binaryWriter (world f)) = true ->
  serializeInternal imports data s f
  = (Throw (Error permission_denied), logged [EWriterReset] f).
Proof.
  intros L. destruct f as [c a [bw br rr cr] t]. cbn in L.
  unfold serializeInternal. run_monad. rewrite L. reflexivity.
Qed.

(** Otherwise it frames the header, runs the codec and patches the offset. *)
Lemma serializeInternal_unlocked imports data s f :
  w_locked (binaryWriter (world f)) = false ->
  serializeInternal imports data s f
  = match write s data (world_at_write imports data s (world f)) with
    | (Normal _, w) =>
        (Normal tt,
         with_world (patched w)
           (logged (frame_events imports data s ++ patch_events (w_cursor (binaryWriter w))) f))
    | (Throw e, w) => (Throw e, with_world w (logged (frame_events imports data s) f))
    end.
Proof.
  intros L. destruct f as [c a [bw br rr cr] t]. cbn in L.
  unfold serializeInternal, world_at_write, framed_writer, reset_resolvers, patched,
    frame_events, patch_events.
  run_monad. rewrite L. run_monad.
  match goal with |- context [write s data ?w] => destruct (write s data w) as [[[]|e] w'] end;
    run_monad; rewrite <- ?app_assoc; reflexivity.
Qed.

(** The two public write operations, in the same two cases. *)
Lemma serialize_locked imports data s f :
  w_locked (binaryWriter (world f)) = true ->
  serialize imports data s f
  = (Throw (Error permission_denied), logged [EWriterReset] f).
Proof.
  intros L. unfold serialize, or_anySerializer, bind at 1. simpl.
  unfold bind at 1. now rewrite serializeInternal_locked.
Qed.

Lemma serializeVolatile_locked imports data s f :
  w_locked (binaryWriter (world f)) = true ->
  serializeVolatile imports data s f
  = (Throw (Error permission_denied), logged [EWriterReset] f).
Proof.
  intros L. unfold serializeVolatile, or_anySerializer, bind at 1. simpl.
  unfold bind at 1. now rewrite serializeInternal_locked.
Qed.

Lemma serialize_unlocked imports data s f :
  w_locked (binaryWriter (world f)) = false ->
  let codec := default (anySerializer f) s in
  serialize imports data s f
  = match write codec data (world_at_write imports data codec (world f)) with
    | (Normal _, w) =>
        (Normal (Writer.dump (binaryWriter (patched w))),
         with_world (patched w)
           (logged (write_path imports data codec (w_cursor (binaryWriter w)) EWriterDump) f))
    | (Throw e, w) => (Throw e, with_world w (logged (frame_events imports data codec) f))
    end.
Proof.
  intros L codec. unfold serialize, or_anySerializer, bind at 1. simpl.
  unfold bind at 1. rewrite serializeInternal_unlocked by assumption. fold codec.
  destruct (write codec data _) as [[[]|e] w']; [|reflexivity].
  unfold binaryWriter_dump, write_path. run_monad.
  unfold logged, with_world. simpl. now rewrite <- !app_assoc.
Qed.

Lemma serializeVolatile_unlocked imports data s f :
  w_locked (binaryWriter (world f)) = false ->
  let codec := default (anySerializer f) s in
  serializeVolatile imports data s f
  = match write codec data (world_at_write imports data codec (world f)) with
    | (Normal _, w) =>
        let done :=
          logged (write_path imports data codec (w_cursor (binaryWriter w)) EWriterDumpAndOwn) f in
        match Writer.dumpAndOwn (binaryWriter (patched w)) with
        | inl e => (Throw e, with_world (patched w) done)
        | inr bw => (Normal the_view, with_world (with_writer bw (patched w)) done)
        end
    | (Throw e, w) => (Throw e, with_world w (logged (frame_events imports data codec) f))
    end.
Proof.
  intros L codec. unfold serializeVolatile, or_anySerializer, bind at 1. simpl.
  unfold bind at 1. rewrite serializeInternal_unlocked by assumption. fold codec.
  destruct (write codec data _) as [[[]|e] w']; [|reflexivity].
  unfold binaryWriter_dumpAndOwn, write_path. run_monad.
  destruct (Writer.dumpAndOwn _) as [e|bw]; simpl;
    unfold logged, with_world; simpl; now rewrite <- !app_assoc.
Qed.

(** ** The read path, run symbolically *)

(** The ways [deserialize] ends, by the input: on the first byte (null, or a
    failed check), on the language tag (out-of-band), in the codec, or on a
    read that leaves the input. *)
Lemma deserialize_run bytes s f :
  let codec := default (anySerializer f) s in
  let stopped n es :=
    with_world (world_reading bytes n (world f)) (logged (read_start bytes ++ es) f) in
  deserialize bytes s f
  = match bytes with
    | [] => (Throw out_of_bounds, stopped 0%nat [EReaderFailed])
    | b :: rest =>
        if Z.testbit b 0 then (Normal VNull, stopped 1%nat [EReaderUint8 b])
        else if negb (Z.testbit b 1)
        then (Throw (Error big_endian_unsupported), stopped 1%nat [EReaderUint8 b])
        else if negb (Z.testbit b 2)
        then (Throw (Error crosslanguage_only), stopped 1%nat [EReaderUint8 b])
        else
          match rest with
          | [] => (Throw out_of_bounds, stopped 1%nat [EReaderUint8 b; EReaderFailed])
          | tag :: _ =>
              if Z.testbit b 3
              then (Throw (Error outofband_unsupported),
                    stopped 2%nat [EReaderUint8 b; EReaderUint8 tag])
              else if negb (6 <=? length bytes)%nat
              then (Throw out_of_bounds,
                    stopped 2%nat [EReaderUint8 b; EReaderUint8 tag; EReaderFailed])
              else if negb (10 <=? length bytes)%nat
              then (Throw out_of_bounds,
                    stopped 6%nat [EReaderUint8 b; EReaderUint8 tag;
                                   EReaderInt32 (int32_at bytes 2); EReaderFailed])
              else
                let '(r, w) := read codec (world_reading bytes 10 (world f)) in
                (r, with_world w (logged (read_path bytes) f))
          end
    end.
Proof.
  intros codec stopped. destruct f as [c a [bw br rr cr] t].
  subst stopped.
  unfold deserialize, world_reading, reset_resolvers, read_path, read_prologue, read_start.
  destruct bytes as [|b rest].
  { run_monad. same_log. }
  run_monad. change ((b :: rest) !! 0%nat) with (Some b). run_monad.
  rewrite has_isNullFlag, has_isLittleEndianFlag, has_isCrossLanguageFlag, has_isOutOfBandFlag.
  destruct (Z.testbit b 0); run_monad; [same_log|].
  destruct (Z.testbit b 1); run_monad; [|same_log].
  destruct (Z.testbit b 2); run_monad; [|same_log].
  destruct rest as [|tag rest].
  { change ([b] !! 1%nat) with (@None Z). run_monad. same_log. }
  change ((b :: tag :: rest) !! 1%nat) with (Some tag). run_monad.
  destruct (Z.testbit b 3); run_monad; [same_log|].
  unfold Reader.int32. run_monad. change (4 + 2)%nat with 6%nat.
  destruct (6 <=? length (b :: tag :: rest))%nat; run_monad; [|same_log].
  change (4 + 6)%nat with 10%nat.
  destruct (10 <=? length (b :: tag :: rest))%nat; run_monad; [|same_log].
  subst codec. run_monad.
  match goal with |- context [read ?k ?w] => destruct (read k w) as [r w'] end.
  same_log.
Qed.

(** ** What the three operations log *)

(** The calls of a write: the reset alone, the path up to the codec, or the
    whole path. *)
Lemma serialize_emitted imports data s f :
  let codec := default (anySerializer f) s in
  emitted (serialize imports data s) f
  = if w_locked (binaryWriter (world f)) then [EWriterReset]
    else match fst (write codec data (world_at_write imports data codec (world f))) with
         | Normal _ =>
             write_path imports data codec (position_after_write imports data codec f) EWriterDump
         | Throw _ => frame_events imports data codec
         end.
Proof.
  intros codec. apply emitted_logged. unfold position_after_write.
  destruct (w_locked (binaryWriter (world f))) eqn:L.
  - now rewrite serialize_locked.
  - rewrite serialize_unlocked by assumption. fold codec.
    now destruct (write codec data _) as [[[]|e] w'].
Qed.

Lemma serializeVolatile_emitted imports data s f :
  let codec := default (anySerializer f) s in
  emitted (serializeVolatile imports data s) f
  = if w_locked (binaryWriter (world f)) then [EWriterReset]
    else match fst (write codec data (world_at_write imports data codec (world f))) with
         | Normal _ =>
             write_path imports data codec (position_after_write imports data codec f)
               EWriterDumpAndOwn
         | Throw _ => frame_events imports data codec
         end.
Proof.
  intros codec. apply emitted_logged. unfold position_after_write.
  destruct (w_locked (binaryWriter (world f))) eqn:L.
  - now rewrite serializeVolatile_locked.
  - rewrite serializeVolatile_unlocked by assumption. fold codec.
    destruct (write codec data _) as [[[]|e] w']; [|reflexivity].
    cbv zeta. now destruct (Writer.dumpAndOwn _).
Qed.

(** The calls of a read, by the input. *)
Lemma deserialize_emitted bytes s f :
  emitted (deserialize bytes s) f
  = read_start bytes ++
    match bytes with
    | [] => [EReaderFailed]
    | b :: rest =>
        EReaderUint8 b ::
        if Z.testbit b 0 then []
        else if negb (Z.testbit b 1) then []
        else if negb (Z.testbit b 2) then []
        else
          match rest with
          | [] => [EReaderFailed]
          | tag :: _ =>
              EReaderUint8 tag ::
              if Z.testbit b 3 then []
              else if negb (6 <=? length bytes)%nat then [EReaderFailed]
              else if negb (10 <=? length bytes)%nat
              then [EReaderInt32 (int32_at bytes 2); EReaderFailed]
              else [EReaderInt32 (int32_at bytes 2); EReaderInt32 (int32_at bytes 6);
                    ESerializerRead]
          end
    end.
Proof.
  apply emitted_logged.
  pose proof (deserialize_run bytes s f) as R. cbv zeta in R. rewrite R.
  destruct bytes as [|b rest]; [reflexivity|].
  destruct (Z.testbit b 0); [reflexivity|].
  destruct (Z.testbit b 1); [|reflexivity].
  destruct (Z.testbit b 2); [|reflexivity].
  destruct rest as [|tag rest]; [reflexivity|].
  destruct (Z.testbit b 3); [reflexivity|].
  destruct (6 <=? length (b :: tag :: rest))%nat; [|reflexivity].
  destruct (10 <=? length (b :: tag :: rest))%nat; [|reflexivity].
  cbn [negb]. cbv iota. now destruct (read _ _).
Qed.

(** One goal for each way a read can end. *)
Ltac read_cases :=
  repeat (match goal with
          | |- context [match ?l with [] => _ | _ :: _ => _ end] => destruct l
          | |- context [if ?c then _ else _] => destruct c
          end; try reflexivity).

(** Whatever the input, a read starts with the two resets. *)
Lemma deserialize_starts_with_resets bytes s f :
  take 2 (emitted (deserialize bytes s) f) = [EReferenceResolverReset; EClassResolverReset].
Proof. now rewrite deserialize_emitted. Qed.

(** ** The frame around the payload *)

(** With a codec that only appends, the output of [serialize] is the frame
    of its payload. *)
Lemma serialize_frame imports data s f payload :
  w_locked (binaryWriter (world f)) = false ->
  appends (default (anySerializer f) s) data payload ->
  fst (serialize imports data s f) = Normal (frame imports data payload).
Proof.
  intros L A. rewrite serialize_unlocked by assumption. cbv zeta.
  destruct (A (world_at_write imports data (default (anySerializer f) s) (world f)))
    as [Ar Aw].
  destruct (write _ data _) as [[[]|e] w]; [|discriminate].
  cbn [fst snd] in *. unfold Writer.dump, patched, with_writer. cbn [binaryWriter].
  rewrite Aw. unfold world_at_write, with_writer. cbn [binaryWriter].
  f_equal. apply patched_contents.
Qed.

(** C1, as the code has it: [serialize(null)] sets the null bit in the
    bitmap byte and still writes the whole frame.  With a codec that appends
    [payload] for [null], the output is the bitmap byte 7 (null,
    little-endian and cross-language bits), the language tag, the 4-byte
    offset, the 4-byte zero count and that payload: ten bytes or more. *)
Theorem serialize_null_writes_whole_frame imports s f payload :
  w_locked (binaryWriter (world f)) = false ->
  appends (default (anySerializer f) s) VNull payload ->
  let out :=
    7 :: Z.land (Language_XLANG imports) 255
      :: le_bytes32 (Z.of_nat (10 + length payload))
      ++ [0; 0; 0; 0] ++ map (fun b => Z.land b 255) payload in
  fst (serialize imports VNull s f) = Normal out /\
  has_flag 7 ConfigFlags.isNullFlag = true /\
  length out = (header_size + length payload)%nat /\
  (header_size <= length out)%nat.
Proof.
  intros L A out.
  assert (Hlen : length out = (header_size + length payload)%nat).
  { subst out. cbn [length app le_bytes32]. rewrite length_map. reflexivity. }
  split; [|split; [reflexivity|split; [exact Hlen|lia]]].
  now rewrite (serialize_frame imports VNull s f payload L A).
Qed.

Lemma serialize_null_writes_whole_frame_witness :
  w_locked (binaryWriter (world used_fury)) = false /\
  appends sample_serializer VNull [] /\
  fst (serialize sample_imports VNull None used_fury)
  = Normal [7; 0; 10; 0; 0; 0; 0; 0; 0; 0].
Proof.
  assert (A : appends sample_serializer VNull []) by (intros w; split; reflexivity).
  split; [reflexivity|]. split; [exact A|].
  exact (proj1 (serialize_null_writes_whole_frame sample_imports None used_fury []
                  eq_refl A)).
Defined.

(** C1, as the spec has it, fails on the smallest case: an engine fresh
    from the constructor and a codec that writes nothing at all for [null]
    still give ten bytes, not one. *)
Lemma serialize_null_is_not_one_byte :
  fst (serialize sample_imports VNull None sample_fury)
  = Normal [7; 0; 10; 0; 0; 0; 0; 0; 0; 0] /\
  ~ (exists b : Z, fst (serialize sample_imports VNull None sample_fury) = Normal [b]).
Proof.
  assert (E : fst (serialize sample_imports VNull None sample_fury)
              = Normal [7; 0; 10; 0; 0; 0; 0; 0; 0; 0]) by reflexivity.
  split; [exact E|]. intros [b Hb]. rewrite E in Hb. discriminate Hb.
Qed.

(** ** Reading a header *)

(** A first byte with the null bit set ends the read at once. *)
Lemma deserialize_run_null b rest s f :
  Z.testbit b 0 = true ->
  deserialize (b :: rest) s f
  = (Normal VNull,
     with_world (world_reading (b :: rest) 1 (world f)) (logged (read_prologue (b :: rest)) f)).
Proof.
  intros Hnull. pose proof (deserialize_run (b :: rest) s f) as R.
  cbv beta iota zeta in R. now rewrite Hnull in R.
Qed.

(** A header of ten bytes with the null and out-of-band bits clear and the
    other two set is read through, and the codec takes over at offset 10. *)
Lemma deserialize_run_codec b rest s f :
  Z.testbit b 0 = false -> Z.testbit b 1 = true ->
  Z.testbit b 2 = true -> Z.testbit b 3 = false ->
  (9 <= length rest)%nat ->
  deserialize (b :: rest) s f
  = (let '(r, w) :=
       read (default (anySerializer f) s) (world_reading (b :: rest) 10 (world f)) in
     (r, with_world w (logged (read_path (b :: rest)) f))) /\
  emitted (deserialize (b :: rest) s) f = read_path (b :: rest).
Proof.
  intros H0 H1 H2 H3 Hlen.
  pose proof (deserialize_run (b :: rest) s f) as R. cbv beta iota zeta in R.
  pose proof (deserialize_emitted (b :: rest) s f) as E. cbv beta iota in E.
  rewrite H0, H1, H2 in R, E. cbn [negb] in R, E. cbv iota in R, E.
  destruct rest as [|tag rest]; [cbn in Hlen; lia|]. rewrite H3 in R, E.
  assert (L6 : (6 <=? length (b :: tag :: rest))%nat = true)
    by (apply Nat.leb_le; cbn [length] in *; lia).
  assert (L10 : (10 <=? length (b :: tag :: rest))%nat = true)
    by (apply Nat.leb_le; cbn [length] in *; lia).
  rewrite L6, L10 in R, E. cbn [negb] in R, E. cbv iota in R, E.
  split; [exact R|exact E].
Qed.

(** A frame starts with its bitmap byte. *)
Lemma frame_cons imports data payload :
  frame imports data payload
  = (if is_null data then 7 else 6) :: tail (frame imports data payload).
Proof.
  change (frame imports data payload)
    with (Z.land (bitmap_of data) 255 :: tail (frame imports data payload)) at 1.
  rewrite bitmap_of_value. now destruct (is_null data).
Qed.

(** C5: for every input whose first byte has the null flag (bit 0) set,
    [deserialize] returns [null] right after reading that one byte: the
    reader stands at offset 1, the calls made are the two resets, the
    reader's reset and a single [uint8], and the codec's [read] is not run. *)
Theorem deserialize_null_returns_at_once (b : Z) (rest : list Z) s f :
  Z.testbit b 0 = true ->
  let bytes := b :: rest in
  fst (deserialize bytes s f) = Normal VNull /\
  binaryReader (world (snd (deserialize bytes s f))) = mkReader bytes 1 /\
  emitted (deserialize bytes s) f
  = [EReferenceResolverReset; EClassResolverReset; EReaderReset bytes; EReaderUint8 b] /\
  codec_reads (emitted (deserialize bytes s) f) = 0%nat.
Proof.
  intros Hnull bytes.
  pose proof (deserialize_run_null b rest s f Hnull) as R. fold bytes in R.
  assert (E : emitted (deserialize bytes s) f = read_prologue bytes).
  { apply emitted_logged. now rewrite R. }
  rewrite E, R. repeat split.
Qed.

Lemma deserialize_null_returns_at_once_witness :
  fst (deserialize [1; 255; 255] None sample_fury) = Normal VNull /\
  binaryReader (world (snd (deserialize [1; 255; 255] None sample_fury)))
  = mkReader [1; 255; 255] 1 /\
  emitted (deserialize [1; 255; 255] None) sample_fury
  = [EReferenceResolverReset; EClassResolverReset; EReaderReset [1; 255; 255]; EReaderUint8 1] /\
  codec_reads (emitted (deserialize [1; 255; 255] None) sample_fury) = 0%nat.
Proof.
  exact (deserialize_null_returns_at_once 1 [255; 255] None sample_fury eq_refl).
Defined.

(** C9: on read the null flag wins over every protocol check: when bit 0 of
    the first byte is set, [deserialize] returns [null] and throws nothing,
    even if the little-endian bit or the cross-language bit is cleared or
    the out-of-band bit is set. *)
Theorem null_flag_precedes_protocol_checks (b : Z) (rest : list Z) s f :
  Z.testbit b 0 = true ->
  Z.testbit b 1 = false \/ Z.testbit b 2 = false \/ Z.testbit b 3 = true ->
  fst (deserialize (b :: rest) s f) = Normal VNull /\
  forall e, fst (deserialize (b :: rest) s f) <> Throw e.
Proof.
  intros Hnull _.
  rewrite (deserialize_run_null b rest s f Hnull). split; [reflexivity | discriminate].
Qed.

Lemma null_flag_precedes_protocol_checks_witness :
  fst (deserialize [9; 0; 10; 0; 0; 0; 0; 0; 0; 0] None sample_fury) = Normal VNull /\
  forall e, fst (deserialize [9; 0; 10; 0; 0; 0; 0; 0; 0; 0] None sample_fury) <> Throw e.
Proof.
  exact (null_flag_precedes_protocol_checks 9 [0; 10; 0; 0; 0; 0; 0; 0; 0] None sample_fury
           eq_refl (or_introl eq_refl)).
Defined.

(** Each of the three messages is a protocol violation. *)
Lemma rejection_is_protocol_violation b : is_protocol_violation (rejection b) = true.
Proof.
  unfold rejection. destruct (Z.testbit b 1), (Z.testbit b 2); reflexivity.
Qed.

(** C3, as the code has it: for every input whose first byte has the null
    flag clear, [deserialize] throws a protocol violation when the
    little-endian bit is cleared, when the cross-language bit is cleared, or
    when the out-of-band bit is set and the input holds the language tag,
    which the code reads before it tests that bit.  The reader has then gone
    through at most the bitmap and the language tag, so through no byte of
    the payload, and the codec's [read] was not run. *)
Theorem deserialize_rejects_unsupported_header (b : Z) (rest : list Z) s f :
  Z.testbit b 0 = false ->
  Z.testbit b 1 = false \/ Z.testbit b 2 = false \/ (Z.testbit b 3 = true /\ rest <> []) ->
  let bytes := b :: rest in
  let f' := snd (deserialize bytes s f) in
  fst (deserialize bytes s f) = Throw (rejection b) /\
  is_protocol_violation (rejection b) = true /\
  (r_cursor (binaryReader (world f')) <= 2)%nat /\
  payload_bytes_consumed (binaryReader (world f')) = 0%nat /\
  codec_reads (emitted (deserialize bytes s) f) = 0%nat.
Proof.
  intros Hnull Hbad bytes f'. subst f' bytes.
  pose proof (deserialize_run (b :: rest) s f) as R. cbv beta iota zeta in R.
  pose proof (deserialize_emitted (b :: rest) s f) as E. cbv beta iota in E.
  rewrite Hnull in R, E. rewrite E, R. unfold rejection.
  split; [|split; [apply rejection_is_protocol_violation|]].
  - destruct (Z.testbit b 1); [|reflexivity]. destruct (Z.testbit b 2); [|reflexivity].
    destruct Hbad as [?|[?|[H3 Hrest]]]; try discriminate.
    destruct rest as [|tag rest]; [congruence|]. now rewrite H3.
  - destruct (Z.testbit b 1); [|repeat split; cbn; lia].
    destruct (Z.testbit b 2); [|repeat split; cbn; lia].
    destruct Hbad as [?|[?|[H3 Hrest]]]; try discriminate.
    destruct rest as [|tag rest]; [congruence|]. rewrite H3. repeat split; cbn; lia.
Qed.

Lemma deserialize_rejects_unsupported_header_witness :
  let bytes := [14; 0; 11; 0; 0; 0; 0; 0; 0; 0; 42] in
  let f' := snd (deserialize bytes None used_fury) in
  fst (deserialize bytes None used_fury) = Throw (rejection 14) /\
  is_protocol_violation (rejection 14) = true /\
  (r_cursor (binaryReader (world f')) <= 2)%nat /\
  payload_bytes_consumed (binaryReader (world f')) = 0%nat /\
  codec_reads (emitted (deserialize bytes None) used_fury) = 0%nat.
Proof.
  assert (H : Z.testbit 14 1 = false \/ Z.testbit 14 2 = false \/
              (Z.testbit 14 3 = true /\ [0; 11; 0; 0; 0; 0; 0; 0; 0; 42] <> [])).
  { right. right. split; [reflexivity|discriminate]. }
  exact (deserialize_rejects_unsupported_header 14 [0; 11; 0; 0; 0; 0; 0; 0; 0; 42] None
           used_fury eq_refl H).
Defined.

(** C3, as the spec has it, fails on an input of one byte whose
    little-endian, cross-language and out-of-band bits are set: the read of
    the language tag comes before the out-of-band test, leaves the input and
    throws, and what [deserialize] throws is that [RangeError], not a
    protocol violation. *)
Lemma one_byte_out_of_band_header :
  Z.testbit 14 0 = false /\ Z.testbit 14 3 = true /\
  fst (deserialize [14] None sample_fury) = Throw out_of_bounds /\
  is_protocol_violation out_of_bounds = false /\
  ~ (exists e, fst (deserialize [14] None sample_fury) = Throw e /\
               is_protocol_violation e = true).
Proof.
  assert (E : fst (deserialize [14] None sample_fury) = Throw out_of_bounds) by reflexivity.
  repeat split; try reflexivity.
  intros [e [He Hp]]. rewrite E in He. injection He as <-. discriminate Hp.
Qed.

Example two_byte_out_of_band_header :
  fst (deserialize [14; 0] None sample_fury) = Throw (Error outofband_unsupported) /\
  fst (deserialize [6; 0; 10; 0; 0] None sample_fury) = Throw out_of_bounds /\
  fst (deserialize [] None sample_fury) = Throw out_of_bounds.
Proof. repeat split. Qed.

(** ** The header bitmap *)

(** With a codec that only appends, [serializeVolatile] returns the view,
    and the view shows the frame of the payload. *)
Lemma serializeVolatile_frame imports data s f payload :
  w_locked (binaryWriter (world f)) = false ->
  appends (default (anySerializer f) s) data payload ->
  fst (serializeVolatile imports data s f) = Normal the_view /\
  get the_view (snd (serializeVolatile imports data s f)) = frame imports data payload.
Proof.
  intros L A.
  rewrite serializeVolatile_unlocked by exact L. cbv zeta.
  destruct (A (world_at_write imports data (default (anySerializer f) s) (world f)))
    as [Ar Aw].
  destruct (write _ data _) as [[[]|e] w]; [|discriminate].
  cbn [fst snd] in *.
  assert (Hl : w_locked (binaryWriter (patched w)) = false).
  { unfold patched, with_writer, Writer.setUint32Position. cbn [binaryWriter w_locked].
    rewrite Aw. now rewrite appended_locked. }
  unfold Writer.dumpAndOwn. rewrite Hl. cbn [fst snd]. split; [reflexivity|].
  unfold the_view, get, with_world, with_writer. cbn [world binaryWriter].
  rewrite <- (patched_contents imports data (default (anySerializer f) s)
                (binaryWriter (world f)) payload).
  unfold patched, with_writer, world_at_write in *. cbn [binaryWriter] in *.
  rewrite Aw. unfold Writer.contents, Writer.setUint32Position. reflexivity.
Qed.



Example header_bitmap_of_a_number_and_of_null :
  fst (serialize sample_imports (VNumber 3) None used_fury)
  = Normal [6; 0; 11; 0; 0; 0; 0; 0; 0; 0; 42] /\
  fst (serialize sample_imports VNull None used_fury)
  = Normal [7; 0; 10; 0; 0; 0; 0; 0; 0; 0] /\
  get the_view (snd (serializeVolatile sample_imports VNull None used_fury))
  = [7; 0; 10; 0; 0; 0; 0; 0; 0; 0].
Proof. repeat split. Qed.

(** ** The order of the write path *)

(** C6: the write path is one linear sequence of calls: reset the writer,
    reset the reference and the class resolver, write the bitmap, write the
    language tag, take the cursor (2), skip the 4-byte placeholder, write the
    4-byte zero count, reserve the codec's fixed-size hint, run the codec's
    [write], take the cursor again and patch the placeholder at 2 with it,
    then extract with [dump] ([serialize]) or [dumpAndOwn]
    ([serializeVolatile]).  On a writer that is free, a call whose codec's
    [write] returns makes exactly these thirteen calls in this order and
    returns what the extraction gives of the patched buffer; when the
    codec's [write] throws, the call throws the same after the first ten;
    on a writer that is held, it throws after the first. *)
Theorem write_path_is_linear imports data s f :
  let codec := default (anySerializer f) s in
  let steps position extract :=
    [EWriterReset; EReferenceResolverReset; EClassResolverReset;
     EWriterUint8 (bitmap_of data); EWriterUint8 (Language_XLANG imports);
     EWriterGetCursor 2; EWriterSkip 4; EWriterUint32 0;
     EWriterReserve (fixedSize codec); ESerializerWrite data;
     EWriterGetCursor position; EWriterSetUint32Position 2 (Z.of_nat position);
     extract] in
  if w_locked (binaryWriter (world f))
  then
    serialize imports data s f
    = (Throw (Error permission_denied), logged (take 1 (steps 0%nat EWriterDump)) f) /\
    serializeVolatile imports data s f
    = (Throw (Error permission_denied), logged (take 1 (steps 0%nat EWriterDumpAndOwn)) f)
  else
    match write codec data (world_at_write imports data codec (world f)) with
    | (Normal _, w) =>
        let position := w_cursor (binaryWriter w) in
        serialize imports data s f
        = (Normal (Writer.dump (binaryWriter (patched w))),
           with_world (patched w) (logged (steps position EWriterDump) f)) /\
        emitted (serialize imports data s) f = steps position EWriterDump /\
        emitted (serializeVolatile imports data s) f = steps position EWriterDumpAndOwn /\
        (if w_locked (binaryWriter w)
         then fst (serializeVolatile imports data s f) = Throw OwnershipError
         else
           fst (serializeVolatile imports data s f) = Normal the_view /\
           get the_view (snd (serializeVolatile imports data s f))
           = Writer.dump (binaryWriter (patched w)) /\
           w_locked (binaryWriter (world (snd (serializeVolatile imports data s f)))) = true)
    | (Throw e, w) =>
        serialize imports data s f
        = (Throw e, with_world w (logged (take 10 (steps 0%nat EWriterDump)) f)) /\
        serializeVolatile imports data s f
        = (Throw e, with_world w (logged (take 10 (steps 0%nat EWriterDumpAndOwn)) f))
    end.
Proof.
  intros codec steps. subst steps.
  pose proof (serialize_emitted imports data s f) as Es.
  pose proof (serializeVolatile_emitted imports data s f) as Ev.
  cbv zeta in Es, Ev. fold codec in Es, Ev.
  unfold position_after_write in Es, Ev.
  destruct (w_locked (binaryWriter (world f))) eqn:L.
  - now rewrite serialize_locked, serializeVolatile_locked by exact L.
  - rewrite Es, Ev.
    rewrite serialize_unlocked, serializeVolatile_unlocked by exact L.
    cbv zeta. fold codec. unfold Writer.dumpAndOwn.
    destruct (write codec data _) as [[[]|e] w']; cbn [fst snd]; [|split; reflexivity].
    split; [reflexivity|]. split; [reflexivity|]. split; [reflexivity|].
    change (w_locked (binaryWriter (patched w'))) with (w_locked (binaryWriter w')).
    destruct (w_locked (binaryWriter w')); [reflexivity|].
    repeat split.
Qed.

Example write_path_of_a_number :
  emitted (serialize sample_imports (VNumber 3) None) used_fury
  = [EWriterReset; EReferenceResolverReset; EClassResolverReset;
     EWriterUint8 6; EWriterUint8 0; EWriterGetCursor 2; EWriterSkip 4; EWriterUint32 0;
     EWriterReserve 1; ESerializerWrite (VNumber 3);
     EWriterGetCursor 11; EWriterSetUint32Position 2 11; EWriterDump]
  /\ fst (serialize sample_imports (VNumber 3) None used_fury)
     = Normal [6; 0; 11; 0; 0; 0; 0; 0; 0; 0; 42].
Proof. split; reflexivity. Qed.

Example write_path_cut_short_by_the_codec :
  emitted (serializeVolatile sample_imports (VNumber 3) (Some failing_serializer)) used_fury
  = [EWriterReset; EReferenceResolverReset; EClassResolverReset;
     EWriterUint8 6; EWriterUint8 0; EWriterGetCursor 2; EWriterSkip 4; EWriterUint32 0;
     EWriterReserve 0; ESerializerWrite (VNumber 3)].
Proof. reflexivity. Qed.

(** ** The per-call state of the resolvers *)

(** C7, as the code has it: every [deserialize], and every [serialize] and
    [serializeVolatile] that the writer's reset lets through, resets the
    reference resolver and the transient state of the class resolver before
    it reads or writes a header byte and before a codec routine runs: the
    two resets are the first calls of [deserialize], and in the two write
    operations they follow the writer's reset at once.  Nothing an earlier
    call left in the resolvers reaches such a call: it runs exactly as it
    does from empty per-call state.  A write that the writer's reset turns
    down throws before the resets: it makes no other call, reads and writes
    nothing, and leaves the resolvers as they were. *)
Theorem resolvers_reset_before_any_byte imports data bytes s f written objects transient :
  let stale := with_leftovers written objects transient f in
  let clean := with_leftovers ∅ [] [] f in
  let resets := [EReferenceResolverReset; EClassResolverReset] in
  take 2 (emitted (deserialize bytes s) stale) = resets /\
  deserialize bytes s stale = deserialize bytes s clean /\
  (if w_locked (binaryWriter (world f))
   then
     serialize imports data s stale
     = (Throw (Error permission_denied), logged [EWriterReset] stale) /\
     serializeVolatile imports data s stale
     = (Throw (Error permission_denied), logged [EWriterReset] stale)
   else
     take 3 (emitted (serialize imports data s) stale) = EWriterReset :: resets /\
     serialize imports data s stale = serialize imports data s clean /\
     take 3 (emitted (serializeVolatile imports data s) stale) = EWriterReset :: resets /\
     serializeVolatile imports data s stale = serializeVolatile imports data s clean).
Proof.
  intros stale clean resets. split; [|split].
  - apply deserialize_starts_with_resets.
  - now rewrite !deserialize_run.
  - destruct (w_locked (binaryWriter (world f))) eqn:L.
    + split; [now apply serialize_locked | now apply serializeVolatile_locked].
    + assert (Ls : w_locked (binaryWriter (world stale)) = false) by exact L.
      rewrite serialize_emitted, serializeVolatile_emitted. cbv zeta. rewrite Ls.
      repeat split.
      * now destruct (fst (write _ _ _)).
      * now rewrite !serialize_unlocked by exact L.
      * now destruct (fst (write _ _ _)).
      * now rewrite !serializeVolatile_unlocked by exact L.
Qed.

(** C7, as the spec has it, fails for a write that is turned down: the
    call throws at the writer's reset, before the resolvers are reset, so
    what the write before it left in them is still there after the call. *)
Lemma refused_write_resets_nothing :
  let f1 :=
    snd (serializeVolatile sample_imports (VObject 5) (Some tracking_serializer)
           tracking_fury) in
  let f2 := snd (serialize sample_imports (VNumber 3) None f1) in
  fst (serialize sample_imports (VNumber 3) None f1) = Throw (Error permission_denied) /\
  emitted (serialize sample_imports (VNumber 3) None) f1 = [EWriterReset] /\
  rr_written (referenceResolver (world f2)) = {[ 5%nat := 0%nat ]} /\
  cr_transient (classResolver (world f2)) = ["Point"] /\
  rr_written (referenceResolver (world f2)) <> ∅ /\
  cr_transient (classResolver (world f2)) <> [].
Proof.
  intros f1 f2.
  assert (L : w_locked (binaryWriter (world f1)) = true) by reflexivity.
  assert (E2 : f2 = logged [EWriterReset] f1).
  { subst f2. now rewrite serialize_locked. }
  assert (Ew : rr_written (referenceResolver (world f1)) = {[ 5%nat := 0%nat ]})
    by reflexivity.
  assert (Ec : cr_transient (classResolver (world f1)) = ["Point"]) by reflexivity.
  split; [now rewrite serialize_locked|].
  split; [apply emitted_logged; now rewrite serialize_locked|].
  rewrite E2. cbn [logged world]. rewrite Ew, Ec.
  repeat split; discriminate.
Qed.

Example leftovers_are_dropped :
  let f' := snd (deserialize [6; 0; 10; 0; 0; 0; 0; 0; 0; 0] None used_fury) in
  referenceResolver (world used_fury) = mkRefResolver true {[ 5%nat := 0%nat ]} [VObject 5] /\
  referenceResolver (world f') = mkRefResolver true ∅ [] /\
  cr_transient (classResolver (world used_fury)) = ["Point"] /\
  cr_transient (classResolver (world f')) = [].
Proof. repeat split. Qed.

(** ** The constructor *)

(** C10: an engine built without a configuration argument has
    [refTracking = false], [useSliceString = false] and an empty [hooks]
    table, and its reference resolver is built with tracking off; a
    configuration that is passed is taken as it is. *)
Theorem default_configuration imports :
  config (new_Fury imports None)
  = {| refTracking := false; useSliceString := false; hooks := ∅ |} /\
  refTracking (config (new_Fury imports None)) = false /\
  useSliceString (config (new_Fury imports None)) = false /\
  hooks (config (new_Fury imports None)) = ∅ /\
  rr_tracking (referenceResolver (world (new_Fury imports None))) = false /\
  forall c : Config,
    config (new_Fury imports (Some c)) = c /\
    rr_tracking (referenceResolver (world (new_Fury imports (Some c)))) = refTracking c.
Proof. repeat split. Qed.

(** ** Registration *)

(** None of the three operations calls the codec compiler. *)
Lemma serialize_never_compiles imports data s g :
  compilations (emitted (serialize imports data s) g) = 0%nat.
Proof.
  rewrite serialize_emitted. cbv zeta.
  destruct (w_locked _); [reflexivity|]. now destruct (fst (write _ _ _)).
Qed.

Lemma serializeVolatile_never_compiles imports data s g :
  compilations (emitted (serializeVolatile imports data s) g) = 0%nat.
Proof.
  rewrite serializeVolatile_emitted. cbv zeta.
  destruct (w_locked _); [reflexivity|]. now destruct (fst (write _ _ _)).
Qed.

Lemma deserialize_never_compiles bytes s g :
  compilations (emitted (deserialize bytes s) g) = 0%nat.
Proof.
  rewrite deserialize_emitted. read_cases.
Qed.

(** [registerSerializer], run: one compilation, then the record of
    closures. *)
Lemma registerSerializer_run imports description f :
  registerSerializer imports description f
  = match generateSerializer imports (config f) description (world f) with
    | (Normal codec, w) =>
        (Normal
           {| Registered.serializer := codec;
              Registered.serialize := fun data => serialize imports data (Some codec);
              Registered.serializeVolatile :=
                fun data => serializeVolatile imports data (Some codec);
              Registered.deserialize := fun bytes => deserialize bytes (Some codec) |},
         with_world w (logged [EGenerateSerializer description] f))
    | (Throw e, w) => (Throw e, with_world w (logged [EGenerateSerializer description] f))
    end.
Proof.
  destruct f as [c a w0 t]. unfold registerSerializer. run_monad.
  destruct (generateSerializer imports c description w0) as [[codec|e] w]; reflexivity.
Qed.

(** C8: [registerSerializer] compiles the codec once, with one call of
    [generateSerializer], and the three closures it returns are the engine's
    operations applied with that codec: on every value, every input and from
    every state of the engine they behave as [serialize], [serializeVolatile]
    and [deserialize] called with it, and calling them compiles nothing. *)
Theorem registerSerializer_closures imports description f :
  compilations (emitted (registerSerializer imports description) f) = 1%nat /\
  match fst (registerSerializer imports description f) with
  | Normal r =>
      let codec := Registered.serializer r in
      fst (generateSerializer imports (config f) description (world f)) = Normal codec /\
      (forall data g,
          Registered.serialize r data g = serialize imports data (Some codec) g /\
          compilations (emitted (Registered.serialize r data) g) = 0%nat) /\
      (forall data g,
          Registered.serializeVolatile r data g = serializeVolatile imports data (Some codec) g /\
          compilations (emitted (Registered.serializeVolatile r data) g) = 0%nat) /\
      (forall bytes g,
          Registered.deserialize r bytes g = deserialize bytes (Some codec) g /\
          compilations (emitted (Registered.deserialize r bytes) g) = 0%nat)
  | Throw e =>
      fst (generateSerializer imports (config f) description (world f)) = Throw e
  end.
Proof.
  split.
  - rewrite (emitted_logged _ _ [EGenerateSerializer description]); [reflexivity|].
    rewrite registerSerializer_run.
    destruct (generateSerializer _ _ _ _) as [[codec|e] w]; reflexivity.
  - rewrite registerSerializer_run.
    destruct (generateSerializer _ _ _ _) as [[codec|e] w]; simpl; [|reflexivity].
    split; [reflexivity|]. repeat split.
    + apply serialize_never_compiles.
    + apply serializeVolatile_never_compiles.
    + apply deserialize_never_compiles.
Qed.

Example registered_closures_run :
  match fst (registerSerializer sample_imports (TRecord "Point" PNil) sample_fury) with
  | Normal r =>
      fst (Registered.serialize r (VObject 1) sample_fury)
      = Normal [6; 0; 11; 0; 0; 0; 0; 0; 0; 0; 42] /\
      fst (Registered.deserialize r [6; 0; 11; 0; 0; 0; 0; 0; 0; 0; 42] sample_fury)
      = Normal VUndefined
  | Throw _ => False
  end.
Proof. split; reflexivity. Qed.

(** ** Ownership of the buffer *)

(** A [serializeVolatile] that returns found the writer free and leaves it
    held, and what it returns is the view of that writer. *)
Lemma serializeVolatile_returns imports data s f view :
  fst (serializeVolatile imports data s f) = Normal view ->
  view = the_view /\
  w_locked (binaryWriter (world f)) = false /\
  w_locked (binaryWriter (world (snd (serializeVolatile imports data s f)))) = true.
Proof.
  intros R. destruct (w_locked (binaryWriter (world f))) eqn:L.
  - rewrite serializeVolatile_locked in R by assumption. discriminate.
  - rewrite serializeVolatile_unlocked in * by assumption. cbv zeta in *.
    destruct (write _ data _) as [[[]|e] w']; [|discriminate].
    unfold Writer.dumpAndOwn in *.
    destruct (w_locked (binaryWriter (patched w'))); [discriminate|].
    simpl in R. split; [congruence|]. split; reflexivity.
Qed.

(** The disposer clears the marker. *)
Lemma dispose_unlocks f :
  fst (dispose the_view f) = Normal tt /\
  w_locked (binaryWriter (world (snd (dispose the_view f)))) = false.
Proof. split; reflexivity. Qed.






(** ** Further properties: frames that are written and read back *)

(** What follows the ten header bytes of a frame is the payload. *)
Lemma frame_payload imports data payload :
  drop header_size (frame imports data payload) = map (fun b => Z.land b 255) payload.
Proof. reflexivity. Qed.

Lemma frame_length imports data payload :
  length (frame imports data payload) = (header_size + length payload)%nat.
Proof. unfold frame. cbn [length app le_bytes32]. now rewrite length_map. Qed.

(** Four little-endian bytes stand for the value modulo 2^32. *)
Lemma decode_le_bytes32 v : decode_le (le_bytes32 v) = v mod 2 ^ 32.
Proof.
  unfold decode_le, le_bytes32. cbn [foldr].
  change 255 with (Z.ones 8). rewrite !Z.land_ones by lia.
  rewrite !Z.shiftr_div_pow2 by lia.
  change (2 ^ 8) with 256. change (2 ^ 16) with (256 * 256).
  change (2 ^ 24) with (256 * (256 * 256)). change (2 ^ 32) with 4294967296.
  rewrite <- !Z.div_div by lia.
  pose proof (Z.div_mod v 256 ltac:(lia)) as H0.
  pose proof (Z.mod_pos_bound v 256 ltac:(lia)) as B0.
  set (q1 := v / 256) in *.
  pose proof (Z.div_mod q1 256 ltac:(lia)) as H1.
  pose proof (Z.mod_pos_bound q1 256 ltac:(lia)) as B1.
  set (q2 := q1 / 256) in *.
  pose proof (Z.div_mod q2 256 ltac:(lia)) as H2.
  pose proof (Z.mod_pos_bound q2 256 ltac:(lia)) as B2.
  set (q3 := q2 / 256) in *.
  pose proof (Z.div_mod q3 256 ltac:(lia)) as H3.
  pose proof (Z.mod_pos_bound q3 256 ltac:(lia)) as B3.
  apply (Z.mod_unique_pos _ _ (q3 / 256)); lia.
Qed.

(** X1: what [serialize] gives for [null] is read back as [null] by
    [deserialize], on any engine and with any codec on the read side, and
    the reading never runs a codec: the payload a codec appended for [null]
    is not looked at. *)
Theorem null_round_trip imports s s' f g payload :
  w_locked (binaryWriter (world f)) = false ->
  appends (default (anySerializer f) s) VNull payload ->
  exists out,
    fst (serialize imports VNull s f) = Normal out /\
    fst (deserialize out s' g) = Normal VNull /\
    codec_reads (emitted (deserialize out s') g) = 0%nat.
Proof.
  intros L A. exists (frame imports VNull payload).
  split; [now apply serialize_frame|].
  rewrite frame_cons. cbn [is_null].
  pose proof (deserialize_run_null 7 (tail (frame imports VNull payload)) s' g eq_refl) as R.
  rewrite (emitted_logged _ _ (read_prologue (7 :: tail (frame imports VNull payload))))
    by now rewrite R.
  rewrite R. split; reflexivity.
Qed.

Lemma null_round_trip_witness :
  w_locked (binaryWriter (world used_fury)) = false /\
  exists out,
    fst (serialize sample_imports VNull None used_fury) = Normal out /\
    fst (deserialize out (Some failing_serializer) sample_fury) = Normal VNull /\
    codec_reads (emitted (deserialize out (Some failing_serializer)) sample_fury) = 0%nat.
Proof.
  split; [reflexivity|].
  exact (null_round_trip sample_imports None (Some failing_serializer) used_fury sample_fury []
           eq_refl (sample_serializer_appends VNull)).
Defined.

(** X2: a frame [serialize] gives for a value other than [null] passes every
    header check of [deserialize]: the codec's [read] is run with the reader
    standing at offset 10, where the bytes that remain are exactly the
    payload the codec's [write] appended, and what [read] returns or throws
    is the outcome of [deserialize]. *)
Theorem framed_payload_reaches_the_codec imports data s s' f g payload :
  is_null data = false ->
  w_locked (binaryWriter (world f)) = false ->
  appends (default (anySerializer f) s) data payload ->
  exists out,
    fst (serialize imports data s f) = Normal out /\
    drop header_size out = map (fun b => Z.land b 255) payload /\
    deserialize out s' g
    = (let '(r, w) :=
         read (default (anySerializer g) s')
           (with_reader (mkReader out header_size) (reset_resolvers (world g))) in
       (r, with_world w (logged (read_path out) g))).
Proof.
  intros N L A. exists (frame imports data payload).
  split; [now apply serialize_frame|]. split; [apply frame_payload|].
  pose proof (frame_length imports data payload) as Hlen.
  rewrite frame_cons, N in *.
  apply (deserialize_run_codec 6 (tail (frame imports data payload)) s' g);
    try reflexivity.
  cbn [length] in Hlen. unfold header_size in Hlen. lia.
Qed.

Lemma framed_payload_reaches_the_codec_witness :
  exists out,
    fst (serialize sample_imports (VNumber 3) None used_fury) = Normal out /\
    drop header_size out = map (fun b => Z.land b 255) [42] /\
    deserialize out None sample_fury
    = (let '(r, w) :=
         read (default (anySerializer sample_fury) None)
           (with_reader (mkReader out header_size) (reset_resolvers (world sample_fury))) in
       (r, with_world w (logged (read_path out) sample_fury))).
Proof.
  exact (framed_payload_reaches_the_codec sample_imports (VNumber 3) None None used_fury
           sample_fury [42] eq_refl eq_refl (sample_serializer_appends (VNumber 3))).
Defined.

(** X3: [deserialize] checks the bitmap and nothing else of the header.  An
    input of at least ten bytes whose first byte has the null and
    out-of-band bits clear and the little-endian and cross-language bits set
    is handed to the codec with the reader at offset 10, whatever its
    language tag, offset and count bytes hold; the codec's [read] is run
    once, and its result or exception, and the store it leaves, are those
    of the call. *)
Theorem header_fields_are_not_validated (b : Z) (rest : list Z) s f :
  Z.testbit b 0 = false -> Z.testbit b 1 = true ->
  Z.testbit b 2 = true -> Z.testbit b 3 = false ->
  (9 <= length rest)%nat ->
  let bytes := b :: rest in
  let codec := default (anySerializer f) s in
  let handed := with_reader (mkReader bytes header_size) (reset_resolvers (world f)) in
  fst (deserialize bytes s f) = fst (read codec handed) /\
  world (snd (deserialize bytes s f)) = snd (read codec handed) /\
  codec_reads (emitted (deserialize bytes s) f) = 1%nat.
Proof.
  intros H0 H1 H2 H3 Hlen bytes codec handed.
  destruct (deserialize_run_codec b rest s f H0 H1 H2 H3 Hlen) as [R E].
  fold bytes codec in R, E. rewrite R, E.
  change (world_reading bytes 10 (world f)) with handed.
  destruct (read codec handed) as [r w]. repeat split.
Qed.

Lemma header_fields_are_not_validated_witness :
  let bytes := [6; 77; 255; 255; 255; 255; 1; 2; 3; 4; 42] in
  fst (deserialize bytes None sample_fury) = Normal VUndefined /\
  fst (deserialize bytes (Some failing_serializer) sample_fury)
  = Throw (OtherError "TypeError" "malformed data").
Proof.
  split.
  - exact (proj1 (header_fields_are_not_validated 6 [77; 255; 255; 255; 255; 1; 2; 3; 4; 42]
                    None sample_fury eq_refl eq_refl eq_refl eq_refl
                    ltac:(cbn [length]; lia))).
  - exact (proj1 (header_fields_are_not_validated 6 [77; 255; 255; 255; 255; 1; 2; 3; 4; 42]
                    (Some failing_serializer) sample_fury eq_refl eq_refl eq_refl eq_refl
                    ltac:(cbn [length]; lia))).
Defined.

(** X4: [deserialize] makes no call on the writer, and when it ends without
    running the codec (a null frame, a rejected header) the writer is left
    exactly as it was, pending-release marker included: reading is not
    subject to the ownership check of the write path. *)
Theorem deserialize_leaves_the_writer_alone bytes s f :
  writer_calls (emitted (deserialize bytes s) f) = 0%nat /\
  (codec_reads (emitted (deserialize bytes s) f) = 0%nat ->
   binaryWriter (world (snd (deserialize bytes s f))) = binaryWriter (world f)).
Proof.
  pose proof (deserialize_run bytes s f) as R.
  pose proof (deserialize_emitted bytes s f) as E.
  cbv zeta in R, E. rewrite R, E.
  destruct bytes as [|b rest]; [split; reflexivity|].
  destruct (Z.testbit b 0); [split; reflexivity|].
  destruct (Z.testbit b 1); cbn [negb]; [|split; reflexivity].
  destruct (Z.testbit b 2); cbn [negb]; [|split; reflexivity].
  destruct rest as [|tag rest]; [split; reflexivity|].
  destruct (Z.testbit b 3); [split; reflexivity|].
  destruct (6 <=? length (b :: tag :: rest))%nat; cbn [negb]; [|split; reflexivity].
  destruct (10 <=? length (b :: tag :: rest))%nat; cbn [negb]; [|split; reflexivity].
  split; [reflexivity|]. intros H. discriminate H.
Qed.

Example deserialize_while_a_view_is_out :
  w_locked (binaryWriter (world held_fury)) = true /\
  fst (deserialize [7; 0; 10; 0; 0; 0; 0; 0; 0; 0] None held_fury) = Normal VNull /\
  fst (deserialize [6; 0; 11; 0; 0; 0; 0; 0; 0; 0; 42] None held_fury) = Normal VUndefined.
Proof. repeat split. Qed.

(** X5: a [deserialize] call does not depend on the input of an earlier one:
    whatever the reader held and wherever it stood, the call and the state
    it leaves are the same. *)
Theorem deserialize_forgets_the_earlier_input bytes s f earlier :
  deserialize bytes s (with_world (with_reader earlier (world f)) f) = deserialize bytes s f.
Proof. now rewrite !deserialize_run. Qed.

(** ** Further properties: the write path and its buffer *)

(** X6: when the codec's [write] throws, [serialize] and [serializeVolatile]
    throw that same exception, unwrapped (only the [OwnershipError] of the
    writer's reset is reworded), and stop there: the offset field is not
    patched, nothing is extracted and no marker is installed, the store is
    as the codec left it. *)
Theorem codec_write_failure_passes_through imports data s f e w :
  w_locked (binaryWriter (world f)) = false ->
  let codec := default (anySerializer f) s in
  write codec data (world_at_write imports data codec (world f)) = (Throw e, w) ->
  fst (serialize imports data s f) = Throw e /\
  fst (serializeVolatile imports data s f) = Throw e /\
  world (snd (serialize imports data s f)) = w /\
  world (snd (serializeVolatile imports data s f)) = w /\
  emitted (serialize imports data s) f = frame_events imports data codec /\
  emitted (serializeVolatile imports data s) f = frame_events imports data codec.
Proof.
  intros L codec W.
  pose proof (serialize_emitted imports data s f) as Es.
  pose proof (serializeVolatile_emitted imports data s f) as Ev.
  cbv zeta in Es, Ev. fold codec in Es, Ev. rewrite L, W in Es, Ev. cbn [fst] in Es, Ev.
  rewrite serialize_unlocked, serializeVolatile_unlocked by exact L.
  cbv zeta. fold codec. rewrite W, Es, Ev. repeat split.
Qed.

Lemma codec_write_failure_passes_through_witness :
  fst (serializeVolatile sample_imports (VNumber 3) (Some failing_serializer) used_fury)
  = Throw (OtherError "TypeError" "unsupported value") /\
  w_locked (binaryWriter (world (snd (serializeVolatile sample_imports (VNumber 3)
                                        (Some failing_serializer) used_fury)))) = false.
Proof.
  pose proof (codec_write_failure_passes_through sample_imports (VNumber 3)
                (Some failing_serializer) used_fury
                (OtherError "TypeError" "unsupported value")
                (world_at_write sample_imports (VNumber 3) failing_serializer (world used_fury))
                eq_refl eq_refl) as (_ & Hv & _ & Hw & _).
  split; [exact Hv|]. rewrite Hw. reflexivity.
Defined.

(** A returning [serialize] leaves the writer free. *)
Lemma serialize_keeps_free imports data s f :
  w_locked (binaryWriter (world f)) = false ->
  writes_normally (default (anySerializer f) s) data ->
  returned (fst (serialize imports data s f)) = true /\
  w_locked (binaryWriter (world (snd (serialize imports data s f)))) = false.
Proof.
  intros L W. rewrite serialize_unlocked by exact L. cbv zeta.
  destruct (W (world_at_write imports data (default (anySerializer f) s) (world f)))
    as [Wr Wl].
  destruct (write _ data _) as [[[]|e] w']; [|discriminate].
  cbn [fst snd] in *. split; [reflexivity|]. exact Wl.
Qed.

Lemma serialize_appending_keeps_free imports data s f payload :
  w_locked (binaryWriter (world f)) = false ->
  appends (default (anySerializer f) s) data payload ->
  w_locked (binaryWriter (world (snd (serialize imports data s f)))) = false.
Proof.
  intros L A. apply serialize_keeps_free; [exact L|].
  intros w. destruct (A w) as [Ar Aw]. split; [exact Ar|].
  rewrite Aw. apply appended_locked.
Qed.

(** X7: [serialize] never takes the buffer: on an engine whose writer is
    free, any number of [serialize] calls in a row, with codecs whose
    [write] returns, all return; none is turned down by the ownership
    check. *)
Theorem serialize_is_never_blocked_by_serialize imports calls : forall f,
  w_locked (binaryWriter (world f)) = false ->
  Forall (fun c => writes_normally (snd c) (fst c)) calls ->
  Forall (fun r => returned r = true) (serialize_each imports calls f).
Proof.
  induction calls as [|[data codec] calls IH]; intros f L H; [constructor|].
  inversion H as [|? ? Hc Hrest]; subst. cbn [serialize_each fst snd] in *.
  destruct (serialize_keeps_free imports data (Some codec) f L Hc) as [Hr Hl].
  destruct (serialize imports data (Some codec) f) as [r f'].
  constructor; [exact Hr|]. now apply IH.
Qed.

Lemma serialize_is_never_blocked_by_serialize_witness :
  Forall (fun r => returned r = true)
    (serialize_each sample_imports
       [(VNumber 1, sample_serializer); (VNull, sample_serializer);
        (VString "a", sample_serializer)] used_fury).
Proof.
  apply (serialize_is_never_blocked_by_serialize sample_imports
           [(VNumber 1, sample_serializer); (VNull, sample_serializer);
            (VString "a", sample_serializer)] used_fury eq_refl).
  repeat constructor; apply sample_serializer_writes_normally.
Defined.

(** X8: the buffer is reused and nothing of an earlier frame shows in a
    later one: with codecs that append, the second of two [serialize] calls
    on one engine returns the frame of its own payload, also when that
    payload is shorter than the first. *)
Theorem earlier_frames_do_not_leak imports data1 codec1 payload1 data2 codec2 payload2 f :
  w_locked (binaryWriter (world f)) = false ->
  appends codec1 data1 payload1 ->
  appends codec2 data2 payload2 ->
  let f1 := snd (serialize imports data1 (Some codec1) f) in
  fst (serialize imports data1 (Some codec1) f) = Normal (frame imports data1 payload1) /\
  fst (serialize imports data2 (Some codec2) f1) = Normal (frame imports data2 payload2).
Proof.
  intros L A1 A2 f1. split; [now apply serialize_frame|].
  apply serialize_frame; [|exact A2].
  now apply (serialize_appending_keeps_free imports data1 (Some codec1) f payload1).
Qed.

Lemma earlier_frames_do_not_leak_witness :
  let f1 := snd (serialize sample_imports (VNumber 3) (Some sample_serializer) used_fury) in
  fst (serialize sample_imports (VNumber 3) (Some sample_serializer) used_fury)
  = Normal [6; 0; 11; 0; 0; 0; 0; 0; 0; 0; 42] /\
  fst (serialize sample_imports VNull (Some sample_serializer) f1)
  = Normal [7; 0; 10; 0; 0; 0; 0; 0; 0; 0].
Proof.
  exact (earlier_frames_do_not_leak sample_imports (VNumber 3) sample_serializer [42]
           VNull sample_serializer [] used_fury eq_refl
           (sample_serializer_appends (VNumber 3)) (sample_serializer_appends VNull)).
Defined.

(** X9: [serialize] and [serializeVolatile] share one write path: with a
    codec that appends, the view [serializeVolatile] returns shows, on the
    engine it leaves, the very bytes [serialize] returns. *)
Theorem volatile_view_shows_the_same_bytes imports data s f payload :
  w_locked (binaryWriter (world f)) = false ->
  appends (default (anySerializer f) s) data payload ->
  fst (serialize imports data s f) = Normal (frame imports data payload) /\
  fst (serializeVolatile imports data s f) = Normal the_view /\
  get the_view (snd (serializeVolatile imports data s f)) = frame imports data payload.
Proof.
  intros L A. split; [now apply serialize_frame|]. now apply serializeVolatile_frame.
Qed.

Lemma volatile_view_shows_the_same_bytes_witness :
  fst (serialize sample_imports (VNumber 3) None used_fury)
  = Normal [6; 0; 11; 0; 0; 0; 0; 0; 0; 0; 42] /\
  fst (serializeVolatile sample_imports (VNumber 3) None used_fury) = Normal the_view /\
  get the_view (snd (serializeVolatile sample_imports (VNumber 3) None used_fury))
  = [6; 0; 11; 0; 0; 0; 0; 0; 0; 0; 42].
Proof.
  exact (volatile_view_shows_the_same_bytes sample_imports (VNumber 3) None used_fury [42]
           eq_refl (sample_serializer_appends (VNumber 3))).
Defined.

(** X10: the offset field of a frame (bytes 2 to 5, little-endian) holds the
    cursor at which the codec's [write] ended, that is, with a codec that
    appends, the length of the whole frame; it wraps modulo 2^32.  The count
    field (bytes 6 to 9) is zero. *)
Theorem offset_field_holds_the_frame_length imports data s f payload :
  w_locked (binaryWriter (world f)) = false ->
  appends (default (anySerializer f) s) data payload ->
  exists out,
    fst (serialize imports data s f) = Normal out /\
    decode_le (take 4 (drop 2 out)) = Z.of_nat (length out) mod 2 ^ 32 /\
    take 4 (drop 6 out) = [0; 0; 0; 0].
Proof.
  intros L A. exists (frame imports data payload).
  split; [now apply serialize_frame|]. rewrite frame_length. split; [|reflexivity].
  change (take 4 (drop 2 (frame imports data payload)))
    with (le_bytes32 (Z.of_nat (header_size + length payload))).
  apply decode_le_bytes32.
Qed.

Lemma offset_field_holds_the_frame_length_witness :
  exists out,
    fst (serialize sample_imports (VNumber 3) None used_fury) = Normal out /\
    decode_le (take 4 (drop 2 out)) = Z.of_nat (length out) mod 2 ^ 32 /\
    take 4 (drop 6 out) = [0; 0; 0; 0].
Proof.
  exact (offset_field_holds_the_frame_length sample_imports (VNumber 3) None used_fury [42]
           eq_refl (sample_serializer_appends (VNumber 3))).
Defined.

(** ** Further properties: registered codecs on one engine *)

(** The closures of a registration are the engine's operations with its
    codec. *)
Lemma registered_is_bound imports description f r :
  fst (registerSerializer imports description f) = Normal r ->
  Registered.serialize r
  = (fun data => serialize imports data (Some (Registered.serializer r))) /\
  Registered.serializeVolatile r
  = (fun data => serializeVolatile imports data (Some (Registered.serializer r))).
Proof.
  rewrite registerSerializer_run.
  destruct (generateSerializer _ _ _ _) as [[codec|e] w]; [|discriminate].
  cbn [fst]. intros H. injection H as <-. split; reflexivity.
Qed.

(** X11: ownership belongs to the engine, not to a codec: while the view
    that one registration's [serializeVolatile] returned is out, the
    [serialize] and [serializeVolatile] of every registration, and the
    engine's own [serialize], throw the ownership error on that engine. *)
Theorem view_of_one_codec_blocks_the_others imports d1 d2 f1 f2 r1 r2 data g view :
  fst (registerSerializer imports d1 f1) = Normal r1 ->
  fst (registerSerializer imports d2 f2) = Normal r2 ->
  fst (Registered.serializeVolatile r1 data g) = Normal view ->
  let held := snd (Registered.serializeVolatile r1 data g) in
  forall data',
    fst (Registered.serialize r2 data' held) = Throw (Error permission_denied) /\
    fst (Registered.serializeVolatile r2 data' held) = Throw (Error permission_denied) /\
    fst (serialize imports data' None held) = Throw (Error permission_denied).
Proof.
  intros R1 R2 V held data'.
  destruct (registered_is_bound _ _ _ _ R1) as [_ E1].
  destruct (registered_is_bound _ _ _ _ R2) as [E2s E2v].
  subst held. rewrite E1 in *. rewrite E2s, E2v.
  destruct (serializeVolatile_returns _ _ _ _ _ V) as (_ & _ & H).
  cbv beta. split; [|split].
  - now rewrite (serialize_locked imports data' _ _ H).
  - now rewrite (serializeVolatile_locked imports data' _ _ H).
  - now rewrite (serialize_locked imports data' _ _ H).
Qed.

Lemma view_of_one_codec_blocks_the_others_witness :
  fst (registerSerializer sample_imports (TRecord "Point" PNil) sample_fury)
  = Normal sample_registered /\
  fst (Registered.serializeVolatile sample_registered (VObject 1) used_fury)
  = Normal the_view /\
  forall data',
    fst (Registered.serialize sample_registered data'
           (snd (Registered.serializeVolatile sample_registered (VObject 1) used_fury)))
    = Throw (Error permission_denied).
Proof.
  split; [reflexivity|]. split; [reflexivity|].
  intros data'.
  exact (proj1 (view_of_one_codec_blocks_the_others sample_imports
                  (TRecord "Point" PNil) (TList (TPrimitive 1)) sample_fury used_fury
                  sample_registered sample_registered (VObject 1) used_fury the_view
                  eq_refl eq_refl eq_refl data')).
Defined.
